(** * SkyrimAEUncapper: address resolution and hook installation

    A shallow embedding of [RelocPatch.h] (the [RelocPatch<T>] template with
    its own [HookType] and [PatchSignature]) and of [RelocPatch.cpp] (the
    versioned-ID [CodeSignature] table and [ApplyGamePatches]).

    Machine integers ([uintptr_t], [size_t], [ptrdiff_t]) are [Z] with the
    64-bit wrap-around of the x64 target written out.  Pointers are
    addresses in [Z]; [nullptr] is [0].  The process state is a [World]:
    the bytes of executable memory, the pointer-sized data cells written
    through [uintptr_t*] and [void**], and the chronological trace of the
    calls made to the collaborators.  A failed [ASSERT] or a [HALT] ends the
    run: the computation returns [Fault] together with the world as it was
    at that moment. *)

From Stdlib Require Import ZArith String List Lia Bool.
From stdpp Require Import base gmap strings list.

Local Open Scope string_scope.
Local Open Scope list_scope.
Local Open Scope Z_scope.

(** ** Machine integers *)

(** Unsigned 64-bit wrap-around ([uintptr_t], [size_t]). *)
Definition wrap64 (z : Z) : Z := z mod 2 ^ 64.

(** Conversion of an unsigned 64-bit value to [ptrdiff_t]. *)
Definition to_ptrdiff (z : Z) : Z :=
  let u := wrap64 z in if u <? 2 ^ 63 then u else u - 2 ^ 64.

(** ** Collaborator calls and the world *)

(** The six "write a hook" primitives of SKSE: the four methods of
    [g_branchTrampoline] and the two direct writers of [SafeWrite.h]. *)
Inductive HookWriter : Type :=
| Write5Branch | Write6Branch | Write5Call | Write6Call
| SafeWriteCall | SafeWriteJump.

Inductive Arg : Type :=
| ArgStr (s : string)
| ArgNum (z : Z).

Inductive Event : Type :=
| EvMessage (fmt : string) (args : list Arg)
| EvDbLoad
| EvFindAddressById (id : Z)
| EvRVAScan (name sig : string) (hook_offset indirect_offset instr_size : Z)
| EvStore (ptr value : Z)
| EvHookWrite (k : HookWriter) (at_ target : Z) (ok : bool)
| EvMemSet (at_ value count : Z).

Record World : Type := mkWorld {
  code : gmap Z Z;        (* executable memory, byte per address *)
  cells : gmap Z Z;       (* pointer-sized data cells, keyed by their address *)
  trace : list Event      (* collaborator calls, oldest first *)
}.

(** The collaborators that are not part of the two source files. *)
Record Env : Type := mkEnv {
  (* addr_lib/versionlibdb.h: the content of the database after [Load] *)
  versiondb : gmap Z Z;
  (* RelocationManager::s_baseAddr *)
  s_baseAddr : Z;
  (* BranchTrampoline.h and SafeWrite.h: success flag and new code bytes *)
  hook_write : HookWriter -> Z -> Z -> World -> bool * gmap Z Z;
  (* reg2k/RVA.h: the address found by the pattern scanner, 0 when none *)
  rva_scan : string -> string -> Z -> Z -> Z -> World -> Z
}.

(** ** Faulting state monad *)

Inductive Res (A : Type) : Type :=
| Ok (a : A)
| Fault (msg : string).
Arguments Ok {A} a.
Arguments Fault {A} msg.

Definition M (A : Type) : Type := World -> Res A * World.

Definition ret {A : Type} (a : A) : M A := fun w => (Ok a, w).

Definition bind {A B : Type} (m : M A) (k : A -> M B) : M B :=
  fun w =>
    match m w with
    | (Ok a, w') => k a w'
    | (Fault msg, w') => (Fault msg, w')
    end.

Declare Scope patch_scope.
Delimit Scope patch_scope with patch.
Notation "x <- m ;; k" := (bind m (fun x => k))
  (at level 100, m at next level, right associativity) : patch_scope.
Notation "m ;; k" := (bind m (fun _ => k))
  (at level 100, right associativity) : patch_scope.
Local Open Scope patch_scope.

Definition lift {A : Type} (r : Res A) : M A := fun w => (r, w).

(** Modelled from the spec: [ASSERT] and [HALT] of [common/IErrors.h], which
    is not among the source files.  Every fault is an immediate,
    unconditional termination; the asserted expression is evaluated. *)
Definition ASSERT (cond : bool) (expr : string) : M unit :=
  fun w => if cond then (Ok tt, w) else (Fault expr, w).

Definition HALT {A : Type} (msg : string) : M A :=
  fun w => (Fault msg, w).

Definition emit (e : Event) (w : World) : World :=
  mkWorld (code w) (cells w) (trace w ++ [e]).

(** [_MESSAGE]: a line of the plugin log. *)
Definition _MESSAGE (fmt : string) (args : list Arg) : M unit :=
  fun w => (Ok tt, emit (EvMessage fmt args) w).

(** A store through a [uintptr_t*] or [void**]: [*ptr = value]. *)
Definition store (ptr value : Z) : M unit :=
  fun w => (Ok tt, mkWorld (code w) (<[ptr := value]> (cells w))
                           (trace w ++ [EvStore ptr value])).

(** [count] bytes from [at_] on become [value]. *)
Fixpoint fill (at_ value : Z) (count : nat) (m : gmap Z Z) : gmap Z Z :=
  match count with
  | O => m
  | S n => <[at_ := value]> (fill (at_ + 1) value n m)
  end.

(** Modelled from the spec: [SafeMemSet] of [SafeMemSet.h], which is not
    among the source files; the bulk memory filler [Fill(at, byteValue,
    count)] used for the no-op padding. *)
Definition SafeMemSet (at_ value count : Z) : M unit :=
  fun w => (Ok tt, mkWorld (fill at_ value (Z.to_nat count) (code w)) (cells w)
                           (trace w ++ [EvMemSet at_ value count])).

(** A call of one of the hook writers; the returned flag is the primitive's
    [bool] result. *)
Definition write_hook (E : Env) (k : HookWriter) (at_ target : Z) : M bool :=
  fun w =>
    let '(ok, c) := hook_write E k at_ target w in
    (Ok ok, mkWorld c (cells w) (trace w ++ [EvHookWrite k at_ target ok])).

(** The opcode for an x86 NOP. *)
Definition kNop : Z := 0x90.

(** Events that change executable memory. *)
Definition is_code_write (e : Event) : bool :=
  match e with
  | EvHookWrite _ _ _ _ => true
  | EvMemSet _ _ count => 0 <? count
  | _ => false
  end.

Definition is_hook_write (e : Event) : bool :=
  match e with
  | EvHookWrite _ _ _ _ => true
  | _ => false
  end.

Definition is_scan (e : Event) : bool :=
  match e with
  | EvRVAScan _ _ _ _ _ => true
  | _ => false
  end.


(** ** RelocPatch.cpp *)

Module RelocPatch_cpp.

(** Encodes the various types of hooks which can be injected.  An unscoped
    C++ enumeration: the tag is its integer value, so that the [default]
    branch of a [switch] has tags to catch. *)
Module HookType.

Definition None : Z := 0.
Definition Jump5 : Z := 1.
Definition Jump6 : Z := 2.
Definition DirectJump : Z := 3.
Definition Call5 : Z := 4.
Definition Call6 : Z := 5.
Definition DirectCall : Z := 6.
Definition Nop : Z := 7.

(** The enumerators, in declaration order. *)
Definition tags : list Z :=
  [None; Jump5; Jump6; DirectJump; Call5; Call6; DirectCall; Nop].

(** Gets the patch size of the given hook type. *)
Definition Size (type : Z) : Res Z :=
  if (type =? None) || (type =? Nop) then Ok 0
  else if (type =? Jump5) || (type =? Call5)
          || (type =? DirectCall) || (type =? DirectJump) then Ok 5
  else if (type =? Jump6) || (type =? Call6) then Ok 6
  else Fault "Cannot get the size of an invalid hook type.".

End HookType.

(** Describes a patch to be applied; the release build (no [_DEBUG]
    members). *)
Module CodeSignature.

Record t : Type := mk {
  name : string;
  hook_type : Z;
  hook : Z;
  id : Z;
  patch_size : Z;
  offset : Z;
  return_trampoline : Z;
  result : Z
}.

(** The first constructor: a patch.  [return_trampoline] defaults to
    [nullptr] and [offset] to 0 at the call sites that omit them. *)
Definition patch (name : string) (hook_type hook id patch_size
                  return_trampoline offset : Z) : t :=
  mk name hook_type hook id patch_size offset return_trampoline 0.

(** The second constructor: a code signature which links to a game
    object. *)
Definition object (name : string) (id result : Z) : t :=
  mk name HookType.None 0 id 0 0 0 result.

(** The values a [CodeSignature] can have: the members are only set by the
    two constructors. *)
Definition constructed (s : t) : Prop :=
  (exists name hook_type hook id patch_size return_trampoline offset,
      s = patch name hook_type hook id patch_size return_trampoline offset)
  \/ (exists name id result, s = object name id result).

(** The members hold values of their C++ types. *)
Definition in_range (s : t) : Prop :=
  0 <= hook s < 2 ^ 64 /\ 0 <= id s < 2 ^ 64 /\ 0 <= patch_size s < 2 ^ 64
  /\ - 2 ^ 63 <= offset s < 2 ^ 63
  /\ 0 <= return_trampoline s < 2 ^ 64 /\ 0 <= result s < 2 ^ 64.

End CodeSignature.

(** Addresses fixed at link time: the replacement code, the return
    trampolines and the variables that receive the found game objects. *)
Record Symbols : Type := mkSymbols {
  ModifyPerkPool_Wrapper : Z;
  SkillCapPatch_Wrapper : Z;
  HideLegendaryButton_Wrapper : Z;
  ImprovePlayerSkillPoints_Original : Z;
  ImprovePlayerSkillPoints_Hook : Z;
  ImproveLevelExpBySkillLevel_Wrapper : Z;
  ImproveAttributeWhenLevelUp_Hook : Z;
  GetEffectiveSkillLevel_Hook : Z;
  DisplayTrueSkillLevel_Hook : Z;
  ImprovePlayerSkillPoints_ReturnTrampoline : Z;
  ImproveAttributeWhenLevelUp_ReturnTrampoline : Z;
  GetEffectiveSkillLevel_ReturnTrampoline : Z;
  DisplayTrueSkillLevel_ReturnTrampoline : Z;
  HideLegendaryButton_ReturnTrampoline : Z;
  playerObject : Z;
  gameSettings : Z;
  GetBaseActorValue_Entry : Z;
  GetLevel_Entry : Z;
  GetSkillCoefficients_Entry : Z
}.

Section Signatures.

Variable S : Symbols.

Definition kThePlayer_ObjectSig : CodeSignature.t :=
  CodeSignature.object "g_thePlayer" 403521 (playerObject S).

Definition kGameSettingCollection_ObjectSig : CodeSignature.t :=
  CodeSignature.object "g_gameSettingCollection" 400782 (gameSettings S).

Definition kGetLevel_FunctionSig : CodeSignature.t :=
  CodeSignature.object "GetLevel" 37334 (GetLevel_Entry S).

Definition kGetBaseActorValue_FunctionSig : CodeSignature.t :=
  CodeSignature.object "GetBaseActorValue" 38464 (GetBaseActorValue_Entry S).

Definition kGetSkillCoefficients_FunctionSig : CodeSignature.t :=
  CodeSignature.object "GetSkillCoefficients" 27244
                       (GetSkillCoefficients_Entry S).

Definition kModifyPerkPool_PatchSig : CodeSignature.t :=
  CodeSignature.patch "ModifyPerkPool" HookType.Jump6
                      (ModifyPerkPool_Wrapper S) 52538 7 0 0x62.

Definition kSkillCapPatch_PatchSig : CodeSignature.t :=
  CodeSignature.patch "SkillCapPatch" HookType.Call6
                      (SkillCapPatch_Wrapper S) 41561 9 0 0x76.

Definition kHideLegendaryButton_PatchSig : CodeSignature.t :=
  CodeSignature.patch "HideLegendaryButton" HookType.Jump6
                      (HideLegendaryButton_Wrapper S) 52527 0x1e
                      (HideLegendaryButton_ReturnTrampoline S) 0x153.

Definition kImproveSkillLevel_PatchSig : CodeSignature.t :=
  CodeSignature.patch "ImproveSkillLevel" HookType.Call5
                      (ImprovePlayerSkillPoints_Original S) 41562 5 0 0x98.

Definition kImprovePlayerSkillPoints_PatchSig : CodeSignature.t :=
  CodeSignature.patch "ImprovePlayerSkillPoints" HookType.Jump6
                      (ImprovePlayerSkillPoints_Hook S) 41561 6
                      (ImprovePlayerSkillPoints_ReturnTrampoline S) 0.

Definition kImproveLevelExpBySkillLevel_PatchSig : CodeSignature.t :=
  CodeSignature.patch "ImproveLevelExpBySkillLevel" HookType.Call6
                      (ImproveLevelExpBySkillLevel_Wrapper S) 41561 8 0 0x2D7.

Definition kImproveAttributeWhenLevelUp_PatchSig : CodeSignature.t :=
  CodeSignature.patch "ImproveAttributeWhenLevelUp" HookType.Jump6
                      (ImproveAttributeWhenLevelUp_Hook S) 51917 6
                      (ImproveAttributeWhenLevelUp_ReturnTrampoline S) 0.

Definition kAllowAllAttrImproveCarryWeight_PatchSig : CodeSignature.t :=
  CodeSignature.patch "AllowAllAttrImproveCarryWeight" HookType.Nop
                      0 51917 2 0 0x9a.

Definition kGetEffectiveSkillLevel_PatchSig : CodeSignature.t :=
  CodeSignature.patch "GetEffectiveSkillLevel" HookType.Jump6
                      (GetEffectiveSkillLevel_Hook S) 38462 6
                      (GetEffectiveSkillLevel_ReturnTrampoline S) 0.

Definition kDisplayTrueSkillLevel_PatchSig : CodeSignature.t :=
  CodeSignature.patch "DisplayTrueSkillLevel" HookType.Jump6
                      (DisplayTrueSkillLevel_Hook S) 52525 7
                      (DisplayTrueSkillLevel_ReturnTrampoline S) 0x120.

(** Lists all the code signatures to be resolved/applied by
    [ApplyGamePatches]. *)
Definition kGameSignatures : list CodeSignature.t :=
  [ kThePlayer_ObjectSig;
    kGameSettingCollection_ObjectSig;
    kGetLevel_FunctionSig;
    kGetBaseActorValue_FunctionSig;
    kGetSkillCoefficients_FunctionSig;
    kModifyPerkPool_PatchSig;
    kSkillCapPatch_PatchSig;
    kHideLegendaryButton_PatchSig;
    kImproveSkillLevel_PatchSig;
    kImprovePlayerSkillPoints_PatchSig;
    kImproveLevelExpBySkillLevel_PatchSig;
    kImproveAttributeWhenLevelUp_PatchSig;
    kGetEffectiveSkillLevel_PatchSig;
    kDisplayTrueSkillLevel_PatchSig ].

End Signatures.

Section Apply.

Variable E : Env.

(** [db.Load()]. *)
Definition Load : M unit :=
  fun w => (Ok tt, emit EvDbLoad w).

(** [db.FindAddressById(id)]: the address, [nullptr] when the ID is not in
    the database. *)
Definition FindAddressById (id : Z) : M Z :=
  fun w => (Ok (default 0 (versiondb E !! id)), emit (EvFindAddressById id) w).

(** The address a signature resolves to: the database address plus the
    offset, in [uintptr_t] arithmetic. *)
Definition real_address_of (sig : CodeSignature.t) : Z :=
  wrap64 (default 0 (versiondb E !! CodeSignature.id sig)
          + CodeSignature.offset sig).

(** The [switch] of [ApplyGamePatches]: install the hook/result. *)
Definition install_hook (sig : CodeSignature.t) (real_address : Z) : M unit :=
  let hook_type := CodeSignature.hook_type sig in
  let hook := CodeSignature.hook sig in
  if hook_type =? HookType.None then
    ASSERT (negb (CodeSignature.result sig =? 0)) "sig->result" ;;
    store (CodeSignature.result sig) real_address
  else if hook_type =? HookType.Jump5 then
    ok <- write_hook E Write5Branch real_address hook ;;
    ASSERT ok "g_branchTrampoline.Write5Branch(real_address, sig->hook)"
  else if hook_type =? HookType.Jump6 then
    ok <- write_hook E Write6Branch real_address hook ;;
    ASSERT ok "g_branchTrampoline.Write6Branch(real_address, sig->hook)"
  else if hook_type =? HookType.Call5 then
    ok <- write_hook E Write5Call real_address hook ;;
    ASSERT ok "g_branchTrampoline.Write5Call(real_address, sig->hook)"
  else if hook_type =? HookType.Call6 then
    ok <- write_hook E Write6Call real_address hook ;;
    ASSERT ok "g_branchTrampoline.Write6Call(real_address, sig->hook)"
  else if hook_type =? HookType.DirectCall then
    ok <- write_hook E SafeWriteCall real_address hook ;;
    ASSERT ok "SafeWriteCall(real_address, sig->hook)"
  else if hook_type =? HookType.DirectJump then
    ok <- write_hook E SafeWriteJump real_address hook ;;
    ASSERT ok "SafeWriteJump(real_address, sig->hook)"
  else if hook_type =? HookType.Nop then
    ret tt
  else
    HALT "Cannot install a hook with an invalid type".

(** One iteration of the loop of [ApplyGamePatches], for the table entry
    [sig]. *)
Definition ApplyGamePatches_body (sig : CodeSignature.t) : M unit :=
  let id := CodeSignature.id sig in
  addr <- FindAddressById id ;;
  ASSERT (negb (addr =? 0)) "addr" ;;
  let real_address := wrap64 (addr + CodeSignature.offset sig) in
  _MESSAGE "Signature %s ([ID: %zu] + 0x%zx) is at offset 0x%zx"
           [ArgStr (CodeSignature.name sig); ArgNum id;
            ArgNum (CodeSignature.offset sig);
            ArgNum (wrap64 (real_address - s_baseAddr E))] ;;
  hook_size <- lift (HookType.Size (CodeSignature.hook_type sig)) ;;
  let return_address := wrap64 (real_address + hook_size) in
  ASSERT (hook_size <=? CodeSignature.patch_size sig)
         "hook_size <= sig->patch_size" ;;
  ASSERT (Bool.eqb (CodeSignature.hook sig =? 0)
                   ((CodeSignature.hook_type sig =? HookType.None)
                    || (CodeSignature.hook_type sig =? HookType.Nop)))
         "!(sig->hook) == ((sig->hook_type == HookType::None) || (sig->hook_type == HookType::Nop))" ;;
  (* Install the trampoline, if necessary. *)
  (if negb (CodeSignature.return_trampoline sig =? 0) then
     ASSERT (negb (CodeSignature.hook_type sig =? HookType.None))
            "sig->hook_type != HookType::None" ;;
     ASSERT (negb (CodeSignature.hook_type sig =? HookType.Nop))
            "sig->hook_type != HookType::Nop" ;;
     store (CodeSignature.return_trampoline sig) return_address
   else ret tt) ;;
  (* Install the hook/result. *)
  install_hook sig real_address ;;
  (* Overwrite the rest of the instructions with NOPs. *)
  SafeMemSet return_address kNop
             (wrap64 (CodeSignature.patch_size sig - hook_size)).

(** The [for] loop of [ApplyGamePatches] over the entries still to do. *)
Fixpoint ApplyGamePatches_loop (sigs : list CodeSignature.t) : M unit :=
  match sigs with
  | [] => ret tt
  | sig :: rest => ApplyGamePatches_body sig ;; ApplyGamePatches_loop rest
  end.

(** Applies all of this plugin's patches, for the table [sigs]. *)
Definition ApplyGamePatches_table (sigs : list CodeSignature.t) : M unit :=
  _MESSAGE "Applying game patches..." [] ;;
  Load ;;
  ApplyGamePatches_loop sigs ;;
  _MESSAGE "Finished applying game patches!" [].

Definition ApplyGamePatches (S : Symbols) : M unit :=
  ApplyGamePatches_table (kGameSignatures S).

End Apply.

Section Accessors.

Variable S : Symbols.

(** The pointer-sized value the game keeps at an address of its own data;
    this code never writes there. *)
Variable game : Z -> Z.

(** The result of calling the game function at an address. *)
Variable game_call : Z -> list Z -> Z.

(** The value of one of the file's static pointers: what was last stored
    through its address, [nullptr] when nothing was (static storage is
    zero-initialised). *)
Definition load_static (ptr : Z) : M Z :=
  fun w => (Ok (default 0 (cells w !! ptr)), w).

(** Gets a pointer to the player object. *)
Definition GetPlayer : M Z :=
  p <- load_static (playerObject S) ;;
  ASSERT (negb (p =? 0)) "playerObject" ;;
  ASSERT (negb (game p =? 0)) "*playerObject" ;;
  ret (game p).

(** Gets a pointer to the game settings object. *)
Definition GetGameSettings : M Z :=
  p <- load_static (gameSettings S) ;;
  ASSERT (negb (p =? 0)) "gameSettings" ;;
  ASSERT (negb (game p =? 0)) "*gameSettings" ;;
  ret (game p).

(** Gets the level of the given actor (a [UInt16]). *)
Definition GetLevel (actor : Z) : M Z :=
  entry <- load_static (GetLevel_Entry S) ;;
  ASSERT (negb (entry =? 0)) "GetLevel_Entry" ;;
  ret (game_call entry [actor] mod 2 ^ 16).

End Accessors.

End RelocPatch_cpp.

(** ** RelocPatch.h *)

Module RelocPatch_h.

(** The maximum size of an instruction in the x86 ISA. *)
Definition kMaxInstrSize : Z := 15.

(** Patch sizes for direct hooks. *)
Definition kDirectCallPatchSize : Z := 5.
Definition kDirectJumpPatchSize : Z := 5.

(** Encodes the various types of hooks which can be injected. *)
Module HookType.

Definition None : Z := 0.
Definition Branch5 : Z := 1.
Definition Branch6 : Z := 2.
Definition Call5 : Z := 3.
Definition Call6 : Z := 4.
Definition DirectCall : Z := 5.
Definition DirectJump : Z := 6.
Definition Nop : Z := 7.

Definition tags : list Z :=
  [None; Branch5; Branch6; Call5; Call6; DirectCall; DirectJump; Nop].

(** [None] has no [case]: it takes the [default] branch. *)
Definition Size (type : Z) : Res Z :=
  if type =? Nop then Ok 0
  else if (type =? Branch5) || (type =? Call5) then Ok 5
  else if (type =? Branch6) || (type =? Call6) then Ok 6
  else if type =? DirectCall then Ok kDirectCallPatchSize
  else if type =? DirectJump then Ok kDirectJumpPatchSize
  else Fault "Cannot get the size of an invalid hook type.".

End HookType.

(** Describes a patch to be applied by a [RelocPatch<T>]. *)
Module PatchSignature.

Record t : Type := mk {
  name : string;
  hook_type : Z;
  sig : string;
  patch_size : Z;
  hook_offset : Z;
  indirect_offset : Z;
  instr_size : Z
}.

(** The constructor; its offsets are [size_t] parameters stored in
    [ptrdiff_t] members ([hook_offset], [indirect_offset] and [instr_size]
    default to 0). *)
Definition make (name : string) (hook_type : Z) (sig : string)
    (patch_size hook_offset indirect_offset instr_size : Z) : t :=
  mk name hook_type sig patch_size (to_ptrdiff hook_offset)
     (to_ptrdiff indirect_offset) instr_size.

End PatchSignature.

(** The members of a [RelocPatch<T>] object. *)
Record RelocPatch : Type := mkRelocPatch {
  sig : PatchSignature.t;
  hook_done : bool;
  real_address : Z
}.

(** Constructs a new relocatable patch. *)
Definition new (sig : PatchSignature.t) : RelocPatch :=
  mkRelocPatch sig false 0.

Section Methods.

Variable E : Env.

(** [RVAScan<T>(...)] followed by [GetUIntPtr()]. *)
Definition RVAScan (name sig : string)
    (hook_offset indirect_offset instr_size : Z) : M Z :=
  fun w =>
    (Ok (wrap64 (rva_scan E name sig hook_offset indirect_offset instr_size w)),
     emit (EvRVAScan name sig hook_offset indirect_offset instr_size) w).

(** Resolves the underlying address, if it has not already done so. *)
Definition Resolve (this : RelocPatch) : M RelocPatch :=
  if negb (real_address this =? 0) then ret this
  else
    let s := sig this in
    rva <- RVAScan (PatchSignature.name s) (PatchSignature.sig s)
                   (PatchSignature.hook_offset s)
                   (PatchSignature.indirect_offset s)
                   (PatchSignature.instr_size s) ;;
    let this := mkRelocPatch (sig this) (hook_done this) rva in
    ASSERT (negb (real_address this =? 0)) "real_address" ;;
    ret this.

(** [operator*]: the object at the resolved address. *)
Definition operator_star (this : RelocPatch) : M (Z * RelocPatch) :=
  this <- Resolve this ;;
  ret (real_address this, this).

(** [operator->]. *)
Definition operator_arrow (this : RelocPatch) : M (Z * RelocPatch) :=
  this <- Resolve this ;;
  ret (real_address this, this).

(** [operator T()]: allows functions contained as [T] to be called directly
    through this class. *)
Definition operator_T (this : RelocPatch) : M (Z * RelocPatch) :=
  ret (real_address this, this).

(** Gets the effective address of the found hook. *)
Definition GetUIntPtr (this : RelocPatch) : M (Z * RelocPatch) :=
  this <- Resolve this ;;
  ret (real_address this, this).

(** Gets the address that should be returned to from the patch. *)
Definition GetRetAddr (this : RelocPatch) : M (Z * RelocPatch) :=
  this <- Resolve this ;;
  size <- lift (HookType.Size (PatchSignature.hook_type (sig this))) ;;
  ret (wrap64 (real_address this + size), this).

(** The [switch] of [Apply]: install the hook, linking to the given
    address. *)
Definition install_hook (this : RelocPatch) (target : Z) : M unit :=
  let hook_type := PatchSignature.hook_type (sig this) in
  let real_address := real_address this in
  if hook_type =? HookType.Branch5 then
    ok <- write_hook E Write5Branch real_address target ;;
    ASSERT ok "g_branchTrampoline.Write5Branch(real_address, target)"
  else if hook_type =? HookType.Branch6 then
    ok <- write_hook E Write6Branch real_address target ;;
    ASSERT ok "g_branchTrampoline.Write6Branch(real_address, target)"
  else if hook_type =? HookType.Call5 then
    ok <- write_hook E Write5Call real_address target ;;
    ASSERT ok "g_branchTrampoline.Write5Call(real_address, target)"
  else if hook_type =? HookType.Call6 then
    ok <- write_hook E Write6Call real_address target ;;
    ASSERT ok "g_branchTrampoline.Write6Call(real_address, target)"
  else if hook_type =? HookType.DirectCall then
    ok <- write_hook E SafeWriteCall real_address target ;;
    ASSERT ok "SafeWriteCall(real_address, target)"
  else if hook_type =? HookType.DirectJump then
    ok <- write_hook E SafeWriteJump real_address target ;;
    ASSERT ok "SafeWriteJump(real_address, target)"
  else if hook_type =? HookType.Nop then
    ret tt
  else
    HALT "Cannot install a hook with an invalid type".

(** Writes the patch, redirecting to the given address if applicable
    ([target] defaults to 0).  It is illegal to apply a patch more than
    once. *)
Definition Apply (this : RelocPatch) (target : Z) : M RelocPatch :=
  this <- Resolve this ;;
  hook_size <- lift (HookType.Size (PatchSignature.hook_type (sig this))) ;;
  ASSERT (negb (hook_done this)) "!hook_done" ;;
  ASSERT (hook_size <=? PatchSignature.patch_size (sig this))
         "hook_size <= sig->patch_size" ;;
  install_hook this target ;;
  (* Overwrite the rest of the instruction with NOPs. *)
  ra <- GetRetAddr this ;;
  SafeMemSet (fst ra) kNop
             (wrap64 (PatchSignature.patch_size (sig this) - hook_size)) ;;
  ret (mkRelocPatch (sig (snd ra)) true (real_address (snd ra))).

End Methods.

End RelocPatch_h.

(** ** Properties of runs *)

(** The events a run added to the trace. *)
Definition added (w w' : World) (new : list Event) : Prop :=
  trace w' = trace w ++ new.

(** Number of consultations of the pattern scanner recorded in a trace. *)
Definition scans (w : World) : nat :=
  length (List.filter is_scan (trace w)).

(** The database IDs looked up, in the order of the calls. *)
Definition lookups (l : list Event) : list Z :=
  flat_map (fun e => match e with EvFindAddressById id => [id] | _ => [] end) l.

(** A size function is total on a set of tags. *)
Definition total_on (Size : Z -> Res Z) (tags : list Z) : Prop :=
  forall tag : Z, In tag tags -> exists n : Z, Size tag = Ok n.

(** A completed call of one of the members of a [RelocPatch<T>], from the
    object state [p] in world [w] to [p'] in [w']. *)
Inductive method_call (E : Env) : RelocPatch_h.RelocPatch * World ->
                                  RelocPatch_h.RelocPatch * World -> Prop :=
| call_Resolve p w p' w' :
    RelocPatch_h.Resolve E p w = (Ok p', w') ->
    method_call E (p, w) (p', w')
| call_operator_star p w a p' w' :
    RelocPatch_h.operator_star E p w = (Ok (a, p'), w') ->
    method_call E (p, w) (p', w')
| call_operator_arrow p w a p' w' :
    RelocPatch_h.operator_arrow E p w = (Ok (a, p'), w') ->
    method_call E (p, w) (p', w')
| call_operator_T p w a p' w' :
    RelocPatch_h.operator_T p w = (Ok (a, p'), w') ->
    method_call E (p, w) (p', w')
| call_GetUIntPtr p w a p' w' :
    RelocPatch_h.GetUIntPtr E p w = (Ok (a, p'), w') ->
    method_call E (p, w) (p', w')
| call_GetRetAddr p w a p' w' :
    RelocPatch_h.GetRetAddr E p w = (Ok (a, p'), w') ->
    method_call E (p, w) (p', w')
| call_Apply p target w p' w' :
    RelocPatch_h.Apply E p target w = (Ok p', w') ->
    method_call E (p, w) (p', w').

(** Any number of completed member calls, one after the other. *)
Inductive method_calls (E : Env) : RelocPatch_h.RelocPatch * World ->
                                   RelocPatch_h.RelocPatch * World -> Prop :=
| calls_none s : method_calls E s s
| calls_step s1 s2 s3 :
    method_call E s1 s2 -> method_calls E s2 s3 -> method_calls E s1 s3.

(** Events that write memory: code bytes or data cells. *)
Definition is_memory_write (e : Event) : bool :=
  match e with
  | EvStore _ _ | EvHookWrite _ _ _ _ | EvMemSet _ _ _ => true
  | _ => false
  end.

Definition is_memset (e : Event) : bool :=
  match e with
  | EvMemSet _ _ _ => true
  | _ => false
  end.

(** The guards of one iteration of [ApplyGamePatches]: the ID resolves,
    the hook fits the patch, the hook is present exactly for the injectable
    types, a return trampoline comes with an injectable type only, and a
    [None] signature has a result pointer. *)
Definition passes_guards (E : Env) (sig : RelocPatch_cpp.CodeSignature.t) : Prop :=
  default 0 (versiondb E !! RelocPatch_cpp.CodeSignature.id sig) <> 0
  /\ (exists n : Z,
        RelocPatch_cpp.HookType.Size (RelocPatch_cpp.CodeSignature.hook_type sig)
        = Ok n
        /\ n <= RelocPatch_cpp.CodeSignature.patch_size sig)
  /\ (RelocPatch_cpp.CodeSignature.hook sig <> 0
      <-> RelocPatch_cpp.CodeSignature.hook_type sig <> RelocPatch_cpp.HookType.None
          /\ RelocPatch_cpp.CodeSignature.hook_type sig <> RelocPatch_cpp.HookType.Nop)
  /\ (RelocPatch_cpp.CodeSignature.return_trampoline sig <> 0 ->
      RelocPatch_cpp.CodeSignature.hook_type sig <> RelocPatch_cpp.HookType.None
      /\ RelocPatch_cpp.CodeSignature.hook_type sig <> RelocPatch_cpp.HookType.Nop)
  /\ (RelocPatch_cpp.CodeSignature.hook_type sig = RelocPatch_cpp.HookType.None ->
      RelocPatch_cpp.CodeSignature.result sig <> 0).

(** Every call of a hook writer reports success. *)
Definition writes_succeed (E : Env) : Prop :=
  forall (k : HookWriter) (at_ target : Z) (w : World),
    (hook_write E k at_ target w).1 = true.

(** The number of bytes a hook writer puts at its address: 5 and 6 for the
    trampoline writers, as their names say, and the patch sizes for direct
    hooks of [RelocPatch.h] for the two direct writers. *)
Definition HookWriter_bytes (k : HookWriter) : Z :=
  match k with
  | Write5Branch | Write5Call => 5
  | Write6Branch | Write6Call => 6
  | SafeWriteCall => RelocPatch_h.kDirectCallPatchSize
  | SafeWriteJump => RelocPatch_h.kDirectJumpPatchSize
  end.

(** The name, ID, offset and base-relative address of the "Signature" log
    lines, in the order they were written. *)
Definition signature_lines (l : list Event) : list (string * Z * Z * Z) :=
  flat_map (fun e => match e with
                     | EvMessage _ [ArgStr name; ArgNum id; ArgNum off; ArgNum rel]
                       => [(name, id, off, rel)]
                     | _ => []
                     end) l.

(** The log line an entry gets once its ID is resolved. *)
Definition signature_line (E : Env) (sig : RelocPatch_cpp.CodeSignature.t)
  : string * Z * Z * Z :=
  (RelocPatch_cpp.CodeSignature.name sig,
   RelocPatch_cpp.CodeSignature.id sig,
   RelocPatch_cpp.CodeSignature.offset sig,
   wrap64 (RelocPatch_cpp.real_address_of E sig - s_baseAddr E)).

(** The addresses of the file's static variables that the table writes
    through: the five result pointers and the five return trampolines. *)
Definition cell_addresses (S : RelocPatch_cpp.Symbols) : list Z :=
  [RelocPatch_cpp.playerObject S; RelocPatch_cpp.gameSettings S;
   RelocPatch_cpp.GetLevel_Entry S; RelocPatch_cpp.GetBaseActorValue_Entry S;
   RelocPatch_cpp.GetSkillCoefficients_Entry S;
   RelocPatch_cpp.ImprovePlayerSkillPoints_ReturnTrampoline S;
   RelocPatch_cpp.ImproveAttributeWhenLevelUp_ReturnTrampoline S;
   RelocPatch_cpp.GetEffectiveSkillLevel_ReturnTrampoline S;
   RelocPatch_cpp.DisplayTrueSkillLevel_ReturnTrampoline S;
   RelocPatch_cpp.HideLegendaryButton_ReturnTrampoline S].

(** The replacement code the table links to. *)
Definition hook_addresses (S : RelocPatch_cpp.Symbols) : list Z :=
  [RelocPatch_cpp.ModifyPerkPool_Wrapper S; RelocPatch_cpp.SkillCapPatch_Wrapper S;
   RelocPatch_cpp.HideLegendaryButton_Wrapper S;
   RelocPatch_cpp.ImprovePlayerSkillPoints_Original S;
   RelocPatch_cpp.ImprovePlayerSkillPoints_Hook S;
   RelocPatch_cpp.ImproveLevelExpBySkillLevel_Wrapper S;
   RelocPatch_cpp.ImproveAttributeWhenLevelUp_Hook S;
   RelocPatch_cpp.GetEffectiveSkillLevel_Hook S;
   RelocPatch_cpp.DisplayTrueSkillLevel_Hook S].

(** The variables are distinct objects and none of the addresses is null. *)
Definition linked (S : RelocPatch_cpp.Symbols) : Prop :=
  NoDup (0 :: cell_addresses S) /\ Forall (fun h => h <> 0) (hook_addresses S).

(** ** Fixtures: a small world for the examples *)

Module Fixture.

Definition w0 : World := mkWorld ∅ ∅ [].

Definition footprint (k : HookWriter) : nat :=
  match k with
  | Write6Branch | Write6Call => 6%nat
  | _ => 5%nat
  end.

(** A writer that always succeeds and marks the bytes of the hook. *)
Definition writer_ok (k : HookWriter) (at_ target : Z) (w : World)
  : bool * gmap Z Z :=
  (true, fill at_ 0xE9 (footprint k) (code w)).


Definition db : gmap Z Z :=
  list_to_map [(403521, 0x142fc19c8); (52538, 0x1408f6710);
               (52527, 0x140900000); (51917, 0x1408c4700)].

(** A scanner whose answer changes with every consultation. *)
Definition scanner (name sig : string) (hook_offset indirect_offset
                    instr_size : Z) (w : World) : Z :=
  0x140001000 + hook_offset + 0x100 * Z.of_nat (scans w).

Definition env : Env := mkEnv db 0x140000000 writer_ok scanner.

(** A database that knows every ID of the table. *)
Definition db_full : gmap Z Z :=
  list_to_map [(403521, 0x142fc19c8); (400782, 0x142fc1b78);
               (37334, 0x1406c0e10); (38464, 0x1406e1a00);
               (27244, 0x1403f1230); (52538, 0x1408f6710);
               (41561, 0x14070ec10); (52527, 0x140900000);
               (41562, 0x14070ed70); (51917, 0x1408c4700);
               (38462, 0x1406e1820); (52525, 0x1408fe5f0)].

Definition env_full : Env := mkEnv db_full 0x140000000 writer_ok scanner.


Definition syms : RelocPatch_cpp.Symbols :=
  RelocPatch_cpp.mkSymbols
    0x7000 0x7010 0x7020 0x7030 0x7040 0x7050 0x7060 0x7070 0x7080
    0x8000 0x8008 0x8010 0x8018 0x8020
    0x9000 0x9008 0x9010 0x9018 0x9020.

(** A [Nop] patch and a [Branch5] patch for [RelocPatch<T>]. *)
Definition nop_patch : RelocPatch_h.PatchSignature.t :=
  RelocPatch_h.PatchSignature.make
    "AllowAllAttrImproveCarryWeight" RelocPatch_h.HookType.Nop "0F 85" 2 0x10 0 0.

Definition branch_patch : RelocPatch_h.PatchSignature.t :=
  RelocPatch_h.PatchSignature.make
    "SkillCapPatch" RelocPatch_h.HookType.Branch6 "48 8B 01" 9 0x76 0 0.

(** A patch whose reserved size is too small for its hook. *)
Definition short_patch : RelocPatch_h.PatchSignature.t :=
  RelocPatch_h.PatchSignature.make
    "TooShort" RelocPatch_h.HookType.Call6 "E8" 5 0 0 0.

Definition short_sig : RelocPatch_cpp.CodeSignature.t :=
  RelocPatch_cpp.CodeSignature.patch
    "TooShort" RelocPatch_cpp.HookType.Jump6 0x7000 52527 5 0x8020 0.

(** A signature with a hook although its type is [Nop]. *)
Definition bad_sig : RelocPatch_cpp.CodeSignature.t :=
  RelocPatch_cpp.CodeSignature.patch
    "HookOnNop" RelocPatch_cpp.HookType.Nop 0x7000 51917 2 0 0x9a.

Definition hide_sig : RelocPatch_cpp.CodeSignature.t :=
  RelocPatch_cpp.kHideLegendaryButton_PatchSig syms.

Definition player_sig : RelocPatch_cpp.CodeSignature.t :=
  RelocPatch_cpp.kThePlayer_ObjectSig syms.

Definition perk_sig : RelocPatch_cpp.CodeSignature.t :=
  RelocPatch_cpp.kModifyPerkPool_PatchSig syms.

(** The runs used by the examples. *)
Definition hide_run : Res unit * World :=
  RelocPatch_cpp.ApplyGamePatches_body env hide_sig w0.

Definition player_run : Res unit * World :=
  RelocPatch_cpp.ApplyGamePatches_body env player_sig w0.

Definition bad_run : Res unit * World :=
  RelocPatch_cpp.ApplyGamePatches_body env bad_sig w0.

Definition short_run : Res unit * World :=
  RelocPatch_cpp.ApplyGamePatches_body env short_sig w0.

Definition full_run : Res unit * World :=
  RelocPatch_cpp.ApplyGamePatches env_full syms w0.

Definition perk_run_ok : Res unit * World :=
  RelocPatch_cpp.ApplyGamePatches_body env perk_sig w0.




Definition nop_apply : Res RelocPatch_h.RelocPatch * World :=
  RelocPatch_h.Apply env (RelocPatch_h.new nop_patch) 0 w0.

Definition branch_apply : Res RelocPatch_h.RelocPatch * World :=
  RelocPatch_h.Apply env (RelocPatch_h.new branch_patch) 0x7010 w0.

Definition short_apply : Res RelocPatch_h.RelocPatch * World :=
  RelocPatch_h.Apply env (RelocPatch_h.new short_patch) 0x7010 w0.

Definition branch_get : Res (Z * RelocPatch_h.RelocPatch) * World :=
  RelocPatch_h.GetUIntPtr env (RelocPatch_h.new branch_patch) w0.

(** The object a run returned; the fresh object if it faulted. *)
Definition object_of {A : Type} (dflt : A) (r : Res A) : A :=
  match r with
  | Ok a => a
  | Fault _ => dflt
  end.

(** The game's data: the player pointer and the settings pointer. *)
Definition game (a : Z) : Z :=
  if a =? 0x142fc19c8 then 0x1f0000000
  else if a =? 0x142fc1b78 then 0x1f0001000
  else 0.

(** The game's functions: [GetLevel] answers 0x10000 + 42 before the
    truncation to [UInt16]. *)
Definition game_call (f : Z) (args : list Z) : Z :=
  if f =? 0x1406c0e10 then 0x10000 + 42 else 0.

(** A signature whose ID the database does not know. *)
Definition unknown_sig : RelocPatch_cpp.CodeSignature.t :=
  RelocPatch_cpp.kSkillCapPatch_PatchSig syms.

(** A scanner that finds nothing. *)
Definition scanner_none (name sig : string) (hook_offset indirect_offset
                         instr_size : Z) (w : World) : Z := 0.

Definition env_scan_fails : Env := mkEnv db 0x140000000 writer_ok scanner_none.

(** A [None] patch for [RelocPatch<T>]: an address to look up only. *)
Definition lookup_patch : RelocPatch_h.PatchSignature.t :=
  RelocPatch_h.PatchSignature.make
    "GetLevel" RelocPatch_h.HookType.None "84 C0 74 24" 0 0 0 0.

(** More runs for the examples. *)
Definition hide_table_run : Res unit * World :=
  RelocPatch_cpp.ApplyGamePatches_table env [hide_sig] w0.

Definition partial_run : Res unit * World :=
  RelocPatch_cpp.ApplyGamePatches env syms w0.

Definition lookup_get : Res (Z * RelocPatch_h.RelocPatch) * World :=
  RelocPatch_h.GetUIntPtr env (RelocPatch_h.new lookup_patch) w0.

End Fixture.

(** * Basic facts *)

Lemma wrap64_small (z : Z) : 0 <= z < 2 ^ 64 -> wrap64 z = z.
Proof. intros H. unfold wrap64. apply Z.mod_small. exact H. Qed.

Lemma wrap64_range (z : Z) : 0 <= wrap64 z < 2 ^ 64.
Proof. unfold wrap64. apply Z.mod_pos_bound. lia. Qed.

Lemma fill_lookup (n : nat) : forall (at_ value x : Z) (m : gmap Z Z),
  fill at_ value n m !! x =
  if decide (at_ <= x < at_ + Z.of_nat n) then Some value else m !! x.
Proof.
  induction n as [|n IH]; intros at_ value x m; simpl fill.
  - case_decide; [lia | reflexivity].
  - destruct (decide (at_ = x)) as [->|Hne].
    + rewrite lookup_insert_eq. case_decide; [reflexivity | lia].
    + rewrite lookup_insert_ne by exact Hne. rewrite IH.
      repeat case_decide; try reflexivity; lia.
Qed.

(** * The HookType catalog *)

Lemma cpp_tag_cases (v : Z) :
  v = 0 \/ v = 1 \/ v = 2 \/ v = 3 \/ v = 4 \/ v = 5 \/ v = 6 \/ v = 7
  \/ ~ In v RelocPatch_cpp.HookType.tags.
Proof.
  destruct (decide (0 <= v <= 7)) as [H|H].
  - assert (v = 0 \/ v = 1 \/ v = 2 \/ v = 3 \/ v = 4 \/ v = 5 \/ v = 6 \/ v = 7)
      by lia. tauto.
  - do 8 right. unfold RelocPatch_cpp.HookType.tags. simpl.
    unfold RelocPatch_cpp.HookType.None, RelocPatch_cpp.HookType.Jump5,
      RelocPatch_cpp.HookType.Jump6, RelocPatch_cpp.HookType.DirectJump,
      RelocPatch_cpp.HookType.Call5, RelocPatch_cpp.HookType.Call6,
      RelocPatch_cpp.HookType.DirectCall, RelocPatch_cpp.HookType.Nop.
    lia.
Qed.

Lemma cpp_Size_outside (v : Z) :
  ~ In v RelocPatch_cpp.HookType.tags ->
  RelocPatch_cpp.HookType.Size v
  = Fault "Cannot get the size of an invalid hook type.".
Proof.
  intros H. unfold RelocPatch_cpp.HookType.Size.
  assert (Hv : ~ (0 <= v <= 7)).
  { intros Hr. apply H. unfold RelocPatch_cpp.HookType.tags. simpl.
    unfold RelocPatch_cpp.HookType.None, RelocPatch_cpp.HookType.Jump5,
      RelocPatch_cpp.HookType.Jump6, RelocPatch_cpp.HookType.DirectJump,
      RelocPatch_cpp.HookType.Call5, RelocPatch_cpp.HookType.Call6,
      RelocPatch_cpp.HookType.DirectCall, RelocPatch_cpp.HookType.Nop.
    lia. }
  unfold RelocPatch_cpp.HookType.None, RelocPatch_cpp.HookType.Jump5,
    RelocPatch_cpp.HookType.Jump6, RelocPatch_cpp.HookType.DirectJump,
    RelocPatch_cpp.HookType.Call5, RelocPatch_cpp.HookType.Call6,
    RelocPatch_cpp.HookType.DirectCall, RelocPatch_cpp.HookType.Nop.
  repeat match goal with
         | |- context [?a =? ?b] => destruct (Z.eqb_spec a b); [lia |]
         end.
  reflexivity.
Qed.

Lemma h_tag_cases (v : Z) :
  v = 0 \/ v = 1 \/ v = 2 \/ v = 3 \/ v = 4 \/ v = 5 \/ v = 6 \/ v = 7
  \/ ~ In v RelocPatch_h.HookType.tags.
Proof.
  destruct (decide (0 <= v <= 7)) as [H|H].
  - assert (v = 0 \/ v = 1 \/ v = 2 \/ v = 3 \/ v = 4 \/ v = 5 \/ v = 6 \/ v = 7)
      by lia. tauto.
  - do 8 right. unfold RelocPatch_h.HookType.tags. simpl.
    unfold RelocPatch_h.HookType.None, RelocPatch_h.HookType.Branch5,
      RelocPatch_h.HookType.Branch6, RelocPatch_h.HookType.DirectJump,
      RelocPatch_h.HookType.Call5, RelocPatch_h.HookType.Call6,
      RelocPatch_h.HookType.DirectCall, RelocPatch_h.HookType.Nop.
    lia.
Qed.

Lemma h_Size_outside (v : Z) :
  ~ In v RelocPatch_h.HookType.tags ->
  RelocPatch_h.HookType.Size v
  = Fault "Cannot get the size of an invalid hook type.".
Proof.
  intros H. unfold RelocPatch_h.HookType.Size.
  assert (Hv : ~ (0 <= v <= 7)).
  { intros Hr. apply H. unfold RelocPatch_h.HookType.tags. simpl.
    unfold RelocPatch_h.HookType.None, RelocPatch_h.HookType.Branch5,
      RelocPatch_h.HookType.Branch6, RelocPatch_h.HookType.DirectJump,
      RelocPatch_h.HookType.Call5, RelocPatch_h.HookType.Call6,
      RelocPatch_h.HookType.DirectCall, RelocPatch_h.HookType.Nop.
    lia. }
  unfold RelocPatch_h.HookType.None, RelocPatch_h.HookType.Branch5,
    RelocPatch_h.HookType.Branch6, RelocPatch_h.HookType.DirectJump,
    RelocPatch_h.HookType.Call5, RelocPatch_h.HookType.Call6,
    RelocPatch_h.HookType.DirectCall, RelocPatch_h.HookType.Nop.
  repeat match goal with
         | |- context [?a =? ?b] => destruct (Z.eqb_spec a b); [lia |]
         end.
  reflexivity.
Qed.

(** C2, as amended: the footprint table of both enumerations.  In
    [RelocPatch.cpp] every enumerator has a size (0 for [None] and [Nop], 5
    for the 5-byte and direct encodings, 6 for the 6-byte encodings) and
    [Size] faults exactly outside the enumeration.  In [RelocPatch.h] the
    seven enumerators other than [None] have these sizes, and [Size] faults
    for [None] and outside the enumeration. *)
Theorem footprint_table :
  (RelocPatch_cpp.HookType.Size RelocPatch_cpp.HookType.None = Ok 0
   /\ RelocPatch_cpp.HookType.Size RelocPatch_cpp.HookType.Nop = Ok 0
   /\ RelocPatch_cpp.HookType.Size RelocPatch_cpp.HookType.Jump5 = Ok 5
   /\ RelocPatch_cpp.HookType.Size RelocPatch_cpp.HookType.Call5 = Ok 5
   /\ RelocPatch_cpp.HookType.Size RelocPatch_cpp.HookType.DirectJump = Ok 5
   /\ RelocPatch_cpp.HookType.Size RelocPatch_cpp.HookType.DirectCall = Ok 5
   /\ RelocPatch_cpp.HookType.Size RelocPatch_cpp.HookType.Jump6 = Ok 6
   /\ RelocPatch_cpp.HookType.Size RelocPatch_cpp.HookType.Call6 = Ok 6
   /\ forall tag : Z,
       (exists msg, RelocPatch_cpp.HookType.Size tag = Fault msg)
       <-> ~ In tag RelocPatch_cpp.HookType.tags)
  /\
  (RelocPatch_h.HookType.Size RelocPatch_h.HookType.None
     = Fault "Cannot get the size of an invalid hook type."
   /\ RelocPatch_h.HookType.Size RelocPatch_h.HookType.Nop = Ok 0
   /\ RelocPatch_h.HookType.Size RelocPatch_h.HookType.Branch5 = Ok 5
   /\ RelocPatch_h.HookType.Size RelocPatch_h.HookType.Call5 = Ok 5
   /\ RelocPatch_h.HookType.Size RelocPatch_h.HookType.DirectJump = Ok 5
   /\ RelocPatch_h.HookType.Size RelocPatch_h.HookType.DirectCall = Ok 5
   /\ RelocPatch_h.HookType.Size RelocPatch_h.HookType.Branch6 = Ok 6
   /\ RelocPatch_h.HookType.Size RelocPatch_h.HookType.Call6 = Ok 6
   /\ forall tag : Z,
       (exists msg, RelocPatch_h.HookType.Size tag = Fault msg)
       <-> (tag = RelocPatch_h.HookType.None
            \/ ~ In tag RelocPatch_h.HookType.tags)).
Proof.
  split.
  - repeat (split; [reflexivity |]).
    intros tag. split.
    + intros [msg Hm] Hin. simpl in Hin.
      repeat (destruct Hin as [<- | Hin]; [discriminate Hm |]).
      exact Hin.
    + intros Hout. eexists. apply cpp_Size_outside. exact Hout.
  - repeat (split; [reflexivity |]).
    intros tag. split.
    + intros [msg Hm].
      destruct (decide (tag = RelocPatch_h.HookType.None)) as [->|Hne];
        [left; reflexivity | right].
      intros Hin. simpl in Hin.
      destruct Hin as [<- | Hin]; [apply Hne; reflexivity |].
      repeat (destruct Hin as [<- | Hin]; [discriminate Hm |]).
      exact Hin.
    + intros [-> | Hout]; [eexists; reflexivity |].
      eexists. apply h_Size_outside. exact Hout.
Qed.

(** C2, as stated, fails for the enumeration of [RelocPatch.h]: [None] is
    one of its enumerators and [Size] faults on it. *)
Lemma footprint_None_faults_in_header :
  In RelocPatch_h.HookType.None RelocPatch_h.HookType.tags
  /\ RelocPatch_h.HookType.Size RelocPatch_h.HookType.None
     = Fault "Cannot get the size of an invalid hook type."
  /\ ~ total_on RelocPatch_h.HookType.Size RelocPatch_h.HookType.tags.
Proof.
  split; [left; reflexivity |]. split; [reflexivity |].
  intros Htot.
  destruct (Htot RelocPatch_h.HookType.None) as [n Hn]; [left; reflexivity |].
  discriminate Hn.
Qed.

(** * Running the embedded code symbolically *)

Arguments wrap64 : simpl never.
Arguments fill : simpl never.

(** Unfold the primitives in [H] and split on every test that remains. *)
Ltac exec_in H :=
  repeat first
    [ progress (unfold bind, ret, lift, ASSERT, HALT, store, SafeMemSet,
                _MESSAGE, write_hook, emit in H)
    | progress cbn in H
    | match type of H with
      | context [hook_write ?E ?k ?a ?t ?w] =>
          let ok := fresh "ok" in
          let c := fresh "c" in
          destruct (hook_write E k a t w) as [ok c] eqn:?
      | context [if ?b then _ else _] => destruct b eqn:?
      end ].

Lemma scans_app (c ce : gmap Z Z) (tr new : list Event) :
  scans (mkWorld c ce (tr ++ new))
  = (length (List.filter is_scan tr) + length (List.filter is_scan new))%nat.
Proof. unfold scans. cbn. rewrite List.filter_app, length_app. reflexivity. Qed.

(** * RelocPatch<T>: resolution *)

Section HeaderFacts.

Variable E : Env.

Lemma Resolve_cached (p : RelocPatch_h.RelocPatch) (w : World) :
  RelocPatch_h.real_address p <> 0 -> RelocPatch_h.Resolve E p w = (Ok p, w).
Proof.
  intros H. unfold RelocPatch_h.Resolve.
  destruct (Z.eqb_spec (RelocPatch_h.real_address p) 0); [contradiction |].
  reflexivity.
Qed.

Lemma scans_snoc (c ce : gmap Z Z) (tr : list Event) (e : Event) :
  scans (mkWorld c ce (tr ++ [e]))
  = (length (List.filter is_scan tr) + (if is_scan e then 1 else 0))%nat.
Proof. rewrite scans_app. cbn. destruct (is_scan e); reflexivity. Qed.

Lemma Resolve_inv (p : RelocPatch_h.RelocPatch) (w : World)
      (r : Res RelocPatch_h.RelocPatch) (w1 : World) :
  RelocPatch_h.Resolve E p w = (r, w1) ->
  code w1 = code w /\ cells w1 = cells w
  /\ (RelocPatch_h.real_address p = 0 -> scans w1 = S (scans w))
  /\ (forall p1, r = Ok p1 ->
        RelocPatch_h.real_address p1 <> 0
        /\ RelocPatch_h.sig p1 = RelocPatch_h.sig p
        /\ RelocPatch_h.hook_done p1 = RelocPatch_h.hook_done p).
Proof.
  intros H. unfold RelocPatch_h.Resolve, RelocPatch_h.RVAScan in H.
  destruct (Z.eqb_spec (RelocPatch_h.real_address p) 0) as [Hz|Hnz].
  - exec_in H; inversion H; subst; clear H.
    + split; [reflexivity |]. split; [reflexivity |]. split.
      * intros _. rewrite scans_snoc. unfold scans. cbn. lia.
      * intros p1 Hp1. inversion Hp1; subst; cbn.
        split; [| split; reflexivity].
        apply negb_true_iff in Heqb. apply Z.eqb_neq in Heqb. exact Heqb.
    + split; [reflexivity |]. split; [reflexivity |]. split.
      * intros _. rewrite scans_snoc. unfold scans. cbn. lia.
      * intros p1 Hp1. discriminate Hp1.
  - exec_in H; inversion H; subst; clear H.
    split; [reflexivity |]. split; [reflexivity |]. split.
    + intros Hz. contradiction.
    + intros p1 Hp1. inversion Hp1; subst. split; [exact Hnz |].
      split; reflexivity.
Qed.

(** Case analysis on a call of [Apply] on a resolved patch: one goal per
    path through the method, with [H] the final result. *)
Ltac apply_paths p H Hra :=
  let Hb := fresh "Hb" in
  unfold RelocPatch_h.Apply in H; unfold bind at 1 in H;
  rewrite Resolve_cached in H by exact Hra;
  destruct p as [[name ht s ps ho io isz] hd ra]; cbn in Hra;
  assert (Hb : (ra =? 0) = false) by (apply Z.eqb_neq; exact Hra);
  destruct (h_tag_cases ht)
    as [->|[->|[->|[->|[->|[->|[->|[->|Hout]]]]]]]];
  [ .. | cbn in H; rewrite (h_Size_outside _ Hout) in H ];
  unfold RelocPatch_h.install_hook, RelocPatch_h.GetRetAddr,
    RelocPatch_h.Resolve in H;
  cbn in H; rewrite ?Hb in H; exec_in H;
  rewrite <- ?app_assoc in H; cbn in H;
  unfold RelocPatch_h.kDirectCallPatchSize,
    RelocPatch_h.kDirectJumpPatchSize in *;
  inversion H; subst; clear H.

Ltac scans_tac :=
  unfold scans; cbn; rewrite ?List.filter_app, ?length_app; cbn; lia.

Ltac close_path :=
  repeat match goal with
         | |- _ /\ _ => split
         | |- forall _, _ => intro
         | H : Ok _ = Ok _ |- _ => inversion H; subst; clear H
         | H : Fault _ = Ok _ |- _ => discriminate H
         | H : Ok _ = Fault _ |- _ => discriminate H
         | H : negb ?b = true |- ?b = false =>
             destruct b; [discriminate H | reflexivity]
         | |- exists n, Ok ?x = Ok n => exists x; reflexivity
         end;
  cbn; try reflexivity; try scans_tac.

Lemma Apply_resolved_frame (p : RelocPatch_h.RelocPatch) (target : Z)
      (w : World) (r : Res RelocPatch_h.RelocPatch) (w' : World) :
  RelocPatch_h.real_address p <> 0 ->
  RelocPatch_h.Apply E p target w = (r, w') ->
  scans w' = scans w /\ cells w' = cells w
  /\ (forall p', r = Ok p' ->
        RelocPatch_h.hook_done p = false
        /\ RelocPatch_h.hook_done p' = true
        /\ RelocPatch_h.real_address p' = RelocPatch_h.real_address p
        /\ RelocPatch_h.sig p' = RelocPatch_h.sig p
        /\ exists n, RelocPatch_h.HookType.Size
                       (RelocPatch_h.PatchSignature.hook_type
                          (RelocPatch_h.sig p)) = Ok n).
Proof.
  intros Hra H. apply_paths p H Hra; cbn; close_path.
Qed.

Lemma Apply_via_Resolve (p pr : RelocPatch_h.RelocPatch) (target : Z)
      (w wr : World) :
  RelocPatch_h.Resolve E p w = (Ok pr, wr) ->
  RelocPatch_h.Apply E p target w = RelocPatch_h.Apply E pr target wr.
Proof.
  intros H. destruct (Resolve_inv _ _ _ _ H) as (_ & _ & _ & Hok).
  destruct (Hok pr eq_refl) as (Hnz & _ & _).
  unfold RelocPatch_h.Apply. unfold bind at 1. rewrite H.
  symmetry. unfold bind at 1. rewrite Resolve_cached by exact Hnz.
  reflexivity.
Qed.

Lemma Apply_done_faults (p : RelocPatch_h.RelocPatch) (target n : Z)
      (w : World) :
  RelocPatch_h.real_address p <> 0 ->
  RelocPatch_h.hook_done p = true ->
  RelocPatch_h.HookType.Size
    (RelocPatch_h.PatchSignature.hook_type (RelocPatch_h.sig p)) = Ok n ->
  RelocPatch_h.Apply E p target w = (Fault "!hook_done", w).
Proof.
  intros Hra Hd Hn. unfold RelocPatch_h.Apply, bind, lift, ASSERT.
  rewrite Resolve_cached by exact Hra. rewrite Hn, Hd. reflexivity.
Qed.

(** Once the address is resolved, a completed member call keeps it, keeps
    the signature and the installed flag, and does not consult the
    scanner. *)
Lemma method_call_resolved (s1 s2 : RelocPatch_h.RelocPatch * World) :
  method_call E s1 s2 ->
  RelocPatch_h.real_address s1.1 <> 0 ->
  RelocPatch_h.real_address s2.1 = RelocPatch_h.real_address s1.1
  /\ RelocPatch_h.sig s2.1 = RelocPatch_h.sig s1.1
  /\ scans s2.2 = scans s1.2
  /\ (RelocPatch_h.hook_done s1.1 = true -> RelocPatch_h.hook_done s2.1 = true).
Proof.
  intros Hc Hra.
  destruct Hc as [p w p' w' H | p w a p' w' H | p w a p' w' H
                 | p w a p' w' H | p w a p' w' H | p w a p' w' H
                 | p t w p' w' H]; cbn in *.
  - rewrite Resolve_cached in H by exact Hra. inversion H; subst. tauto.
  - unfold RelocPatch_h.operator_star, bind, ret in H.
    rewrite Resolve_cached in H by exact Hra. inversion H; subst. tauto.
  - unfold RelocPatch_h.operator_arrow, bind, ret in H.
    rewrite Resolve_cached in H by exact Hra. inversion H; subst. tauto.
  - unfold RelocPatch_h.operator_T, ret in H. inversion H; subst. tauto.
  - unfold RelocPatch_h.GetUIntPtr, bind, ret in H.
    rewrite Resolve_cached in H by exact Hra. inversion H; subst. tauto.
  - unfold RelocPatch_h.GetRetAddr, bind, ret, lift in H.
    rewrite Resolve_cached in H by exact Hra.
    destruct (RelocPatch_h.HookType.Size _); inversion H; subst. tauto.
  - destruct (Apply_resolved_frame _ _ _ _ _ Hra H) as (Hs & _ & Hok).
    destruct (Hok p' eq_refl) as (_ & Hd & Ha & Hsig & _). tauto.
Qed.

Lemma method_calls_resolved (s1 s2 : RelocPatch_h.RelocPatch * World) :
  method_calls E s1 s2 ->
  RelocPatch_h.real_address s1.1 <> 0 ->
  RelocPatch_h.real_address s2.1 = RelocPatch_h.real_address s1.1
  /\ RelocPatch_h.sig s2.1 = RelocPatch_h.sig s1.1
  /\ scans s2.2 = scans s1.2
  /\ (RelocPatch_h.hook_done s1.1 = true -> RelocPatch_h.hook_done s2.1 = true).
Proof.
  induction 1 as [s | s1 s2 s3 Hc Hcs IH]; intros Hra.
  - tauto.
  - destruct (method_call_resolved _ _ Hc Hra) as (Ha & Hsig & Hs & Hd).
    destruct IH as (Ha' & Hsig' & Hs' & Hd'); [rewrite Ha; exact Hra |].
    rewrite Ha', Hsig', Hs', Ha, Hsig, Hs. tauto.
Qed.

(** C5: resolution is idempotent and memoized.  After a first successful
    resolution through [GetUIntPtr], which consulted the scanner at most
    once, any further completed member calls leave the cached address as it
    is and do not consult the scanner, and resolving again, in any world,
    returns the identical address without changing anything. *)
Theorem resolution_memoized (p p1 p2 : RelocPatch_h.RelocPatch)
        (w w1 w2 : World) (a : Z) :
  RelocPatch_h.GetUIntPtr E p w = (Ok (a, p1), w1) ->
  method_calls E (p1, w1) (p2, w2) ->
  a <> 0 /\ RelocPatch_h.real_address p1 = a
  /\ (scans w1 <= S (scans w))%nat
  /\ RelocPatch_h.real_address p2 = a /\ scans w2 = scans w1
  /\ forall w3 : World,
      RelocPatch_h.Resolve E p2 w3 = (Ok p2, w3)
      /\ RelocPatch_h.GetUIntPtr E p2 w3 = (Ok (a, p2), w3).
Proof.
  intros H Hcalls. unfold RelocPatch_h.GetUIntPtr, bind, ret in H.
  destruct (RelocPatch_h.Resolve E p w) as [[pr|msg] wr] eqn:HR;
    [| discriminate H].
  inversion H; subst; clear H.
  destruct (Resolve_inv _ _ _ _ HR) as (_ & _ & Hfresh & Hok).
  destruct (Hok p1 eq_refl) as (Hnz & _ & _).
  destruct (method_calls_resolved _ _ Hcalls Hnz) as (Ha & _ & Hs & _).
  cbn in Ha, Hs.
  assert (Hnz2 : RelocPatch_h.real_address p2 <> 0) by (rewrite Ha; exact Hnz).
  split; [exact Hnz |]. split; [reflexivity |]. split.
  { destruct (Z.eq_dec (RelocPatch_h.real_address p) 0) as [Hz|Hp].
    - rewrite (Hfresh Hz). lia.
    - rewrite Resolve_cached in HR by exact Hp. inversion HR; subst. lia. }
  split; [exact Ha |]. split; [exact Hs |].
  intros w3. split.
  - apply Resolve_cached. exact Hnz2.
  - unfold RelocPatch_h.GetUIntPtr, bind, ret.
    rewrite Resolve_cached by exact Hnz2. rewrite Ha. reflexivity.
Qed.

(** C4: installation is single-shot.  After a completed [Apply], whatever
    member calls complete in between, every further [Apply] faults on
    [ASSERT(!hook_done)] and returns the world exactly as it received
    it. *)
Theorem apply_single_shot (p p1 p2 : RelocPatch_h.RelocPatch)
        (target : Z) (w w1 w2 : World) :
  RelocPatch_h.Apply E p target w = (Ok p1, w1) ->
  method_calls E (p1, w1) (p2, w2) ->
  forall (target' : Z) (w3 : World),
    RelocPatch_h.Apply E p2 target' w3 = (Fault "!hook_done", w3).
Proof.
  intros H Hcalls target' w3.
  destruct (RelocPatch_h.Resolve E p w) as [[pr|msg] wr] eqn:HR.
  - rewrite (Apply_via_Resolve _ _ _ _ _ HR) in H.
    destruct (Resolve_inv _ _ _ _ HR) as (_ & _ & _ & Hok).
    destruct (Hok pr eq_refl) as (Hnz & _ & _).
    destruct (Apply_resolved_frame _ _ _ _ _ Hnz H) as (_ & _ & Hdone).
    destruct (Hdone p1 eq_refl) as (_ & Hd & Ha & Hsig & n & Hn).
    assert (Hnz1 : RelocPatch_h.real_address (p1, w1).1 <> 0)
      by (cbn; rewrite Ha; exact Hnz).
    destruct (method_calls_resolved _ _ Hcalls Hnz1) as (Ha2 & Hsig2 & _ & Hd2).
    cbn in Ha2, Hsig2, Hd2.
    apply Apply_done_faults with (n := n).
    + rewrite Ha2, Ha. exact Hnz.
    + apply Hd2. exact Hd.
    + rewrite Hsig2, Hsig. exact Hn.
  - unfold RelocPatch_h.Apply in H. unfold bind at 1 in H.
    rewrite HR in H. discriminate H.
Qed.

Lemma fresh_Resolve (sig : RelocPatch_h.PatchSignature.t) (w : World)
      (r : Res RelocPatch_h.RelocPatch) (wr : World) :
  RelocPatch_h.Resolve E (RelocPatch_h.new sig) w = (r, wr) ->
  scans wr = S (scans w) /\ forall pr, r = Ok pr -> RelocPatch_h.real_address pr <> 0.
Proof.
  intros HR. destruct (Resolve_inv _ _ _ _ HR) as (_ & _ & Hfresh & Hok).
  split; [apply Hfresh; reflexivity |].
  intros pr Hpr. destruct (Hok pr Hpr) as (Hnz & _). exact Hnz.
Qed.

(** C10: the conversion operator does not resolve.  On a patch that was
    never resolved it returns the zero-initialised address and leaves the
    object and the world as they are; on any patch it returns the cached
    address without consulting the scanner.  [operator*], [operator->],
    [GetUIntPtr], [GetRetAddr] and [Apply] on a fresh patch each consult the
    scanner once. *)
Theorem conversion_never_resolves (sig : RelocPatch_h.PatchSignature.t)
        (p : RelocPatch_h.RelocPatch) (w : World) (target : Z) :
  RelocPatch_h.operator_T (RelocPatch_h.new sig) w
  = (Ok (0, RelocPatch_h.new sig), w)
  /\ RelocPatch_h.operator_T p w = (Ok (RelocPatch_h.real_address p, p), w)
  /\ scans (RelocPatch_h.operator_star E (RelocPatch_h.new sig) w).2
     = S (scans w)
  /\ scans (RelocPatch_h.operator_arrow E (RelocPatch_h.new sig) w).2
     = S (scans w)
  /\ scans (RelocPatch_h.GetUIntPtr E (RelocPatch_h.new sig) w).2
     = S (scans w)
  /\ scans (RelocPatch_h.GetRetAddr E (RelocPatch_h.new sig) w).2
     = S (scans w)
  /\ scans (RelocPatch_h.Apply E (RelocPatch_h.new sig) target w).2
     = S (scans w).
Proof.
  split; [reflexivity |]. split; [reflexivity |].
  destruct (RelocPatch_h.Resolve E (RelocPatch_h.new sig) w)
    as [[pr|msg] wr] eqn:HR;
    destruct (fresh_Resolve _ _ _ _ HR) as (Hs & Hnz).
  - unfold RelocPatch_h.operator_star, RelocPatch_h.operator_arrow,
      RelocPatch_h.GetUIntPtr, RelocPatch_h.GetRetAddr, bind, ret, lift.
    rewrite HR. cbn.
    repeat (split; [exact Hs |]).
    split.
    + destruct (RelocPatch_h.HookType.Size _); exact Hs.
    + rewrite (Apply_via_Resolve _ _ _ _ _ HR).
      destruct (RelocPatch_h.Apply E pr target wr) as [r' w'] eqn:HA.
      destruct (Apply_resolved_frame _ _ _ _ _ (Hnz pr eq_refl) HA) as (Hs' & _).
      cbn. rewrite Hs'. exact Hs.
  - unfold RelocPatch_h.operator_star, RelocPatch_h.operator_arrow,
      RelocPatch_h.GetUIntPtr, RelocPatch_h.GetRetAddr, RelocPatch_h.Apply,
      bind, ret, lift.
    rewrite HR. cbn. repeat (split; [exact Hs |]). exact Hs.
Qed.

Lemma Resolve_trace (p : RelocPatch_h.RelocPatch) (w : World)
      (r : Res RelocPatch_h.RelocPatch) (w1 : World) :
  RelocPatch_h.Resolve E p w = (r, w1) ->
  exists new, added w w1 new
              /\ Forall (fun e => is_memory_write e = false) new.
Proof.
  intros H. unfold RelocPatch_h.Resolve, RelocPatch_h.RVAScan in H.
  exec_in H; inversion H; subst; clear H; unfold added; cbn.
  - exists []. rewrite app_nil_r. split; [reflexivity | constructor].
  - eexists. split; [reflexivity |]. repeat constructor.
  - eexists. split; [reflexivity |]. repeat constructor.
Qed.

(** [Apply] with a hook larger than the reserved patch faults and leaves
    memory as it was. *)
Lemma Apply_undersized (p : RelocPatch_h.RelocPatch) (target n : Z)
      (w : World) (r : Res RelocPatch_h.RelocPatch) (w' : World) :
  RelocPatch_h.HookType.Size
    (RelocPatch_h.PatchSignature.hook_type (RelocPatch_h.sig p)) = Ok n ->
  RelocPatch_h.PatchSignature.patch_size (RelocPatch_h.sig p) < n ->
  RelocPatch_h.Apply E p target w = (r, w') ->
  (exists msg, r = Fault msg)
  /\ code w' = code w /\ cells w' = cells w
  /\ exists new, added w w' new
                 /\ Forall (fun e => is_memory_write e = false) new.
Proof.
  intros Hn Hlt H.
  destruct (RelocPatch_h.Resolve E p w) as [[pr|msg] wr] eqn:HR.
  - rewrite (Apply_via_Resolve _ _ _ _ _ HR) in H.
    destruct (Resolve_inv _ _ _ _ HR) as (Hc & Hce & _ & Hok).
    destruct (Hok pr eq_refl) as (Hnz & Hsig & _).
    unfold RelocPatch_h.Apply, bind, lift, ASSERT in H.
    rewrite Resolve_cached in H by exact Hnz.
    rewrite Hsig, Hn in H.
    assert (Hleb : (n <=? RelocPatch_h.PatchSignature.patch_size
                            (RelocPatch_h.sig p)) = false)
      by (apply Z.leb_gt; exact Hlt).
    rewrite Hleb in H.
    destruct (negb (RelocPatch_h.hook_done pr)); inversion H; subst; clear H.
    all: split; [eexists; reflexivity |].
    all: split; [exact Hc |]; split; [exact Hce |].
    all: exact (Resolve_trace _ _ _ _ HR).
  - unfold RelocPatch_h.Apply in H. unfold bind at 1 in H. rewrite HR in H.
    inversion H; subst; clear H.
    destruct (Resolve_inv _ _ _ _ HR) as (Hc & Hce & _).
    split; [eexists; reflexivity |].
    split; [exact Hc |]. split; [exact Hce |].
    exact (Resolve_trace _ _ _ _ HR).
Qed.

(** A [Nop] patch ignores the target it is given. *)
Lemma Apply_Nop_ignores_target (p : RelocPatch_h.RelocPatch)
      (target target' : Z) (w : World) :
  RelocPatch_h.PatchSignature.hook_type (RelocPatch_h.sig p)
  = RelocPatch_h.HookType.Nop ->
  RelocPatch_h.Apply E p target w = RelocPatch_h.Apply E p target' w.
Proof.
  intros Hnop. unfold RelocPatch_h.Apply.
  unfold bind at 1. symmetry. unfold bind at 1.
  destruct (RelocPatch_h.Resolve E p w) as [[pr|msg] wr] eqn:HR;
    [| reflexivity].
  destruct (Resolve_inv _ _ _ _ HR) as (_ & _ & _ & Hok).
  destruct (Hok pr eq_refl) as (_ & Hsig & _).
  unfold RelocPatch_h.install_hook. rewrite Hsig, Hnop. reflexivity.
Qed.

(** What a completed [Apply] on a resolved patch leaves behind. *)
Lemma Apply_resolved_padding (p p' : RelocPatch_h.RelocPatch) (target : Z)
      (w w' : World) :
  RelocPatch_h.real_address p <> 0 ->
  0 <= RelocPatch_h.PatchSignature.patch_size (RelocPatch_h.sig p) < 2 ^ 64 ->
  RelocPatch_h.Apply E p target w = (Ok p', w') ->
  exists (n : Z) (new : list Event) (c : gmap Z Z),
    let start := wrap64 (RelocPatch_h.real_address p + n) in
    let count := RelocPatch_h.PatchSignature.patch_size (RelocPatch_h.sig p) - n in
    RelocPatch_h.HookType.Size
      (RelocPatch_h.PatchSignature.hook_type (RelocPatch_h.sig p)) = Ok n
    /\ 0 <= count
    /\ added w w' new
    /\ last new = Some (EvMemSet start kNop count)
    /\ List.filter is_memset new = [EvMemSet start kNop count]
    /\ code w' = fill start kNop (Z.to_nat count) c
    /\ (RelocPatch_h.PatchSignature.hook_type (RelocPatch_h.sig p)
        = RelocPatch_h.HookType.Nop ->
        n = 0 /\ c = code w /\ List.filter is_hook_write new = []).
Proof.
  intros Hra Hps H. apply_paths p H Hra; cbn in Hps |- *.
  all: match goal with
       | Hle : (?n <=? ?ps) = true |- _ =>
           apply Z.leb_le in Hle;
           rewrite (wrap64_small (ps - n)) by lia;
           exists n; eexists; eexists;
           split; [reflexivity |]; split; [lia |];
           split; [unfold added; cbn; reflexivity |];
           split; [reflexivity |];
           split; [reflexivity |];
           split; [reflexivity |];
           intros Hnop; try discriminate Hnop
       end.
  split; [reflexivity |]. split; reflexivity.
Qed.

End HeaderFacts.

(** * ApplyGamePatches: one table entry *)

Section CppFacts.

Variable E : Env.

(** Case analysis on one iteration of the loop: one goal per path, with the
    result substituted. *)
Ltac body_paths sig H :=
  unfold RelocPatch_cpp.ApplyGamePatches_body in H;
  destruct sig as [name ht hook id ps off rt res];
  destruct (cpp_tag_cases ht)
    as [->|[->|[->|[->|[->|[->|[->|[->|Hout]]]]]]]];
  [ .. | cbn in H; rewrite (cpp_Size_outside _ Hout) in H ];
  unfold RelocPatch_cpp.install_hook, RelocPatch_cpp.FindAddressById in H;
  cbn in H; exec_in H;
  rewrite <- ?app_assoc in H; cbn in H;
  inversion H; subst; clear H.

Ltac rt_absurd :=
  match goal with
  | Hf : negb (?rt =? 0) = false, Hrt : ?rt <> 0 |- _ =>
      apply negb_false_iff in Hf; apply Z.eqb_eq in Hf; contradiction
  end.

(** Find the position [i] of an event in an explicit list. *)
Ltac walk_trace Hi :=
  cbn in Hi;
  repeat match type of Hi with
         | None = Some _ => discriminate Hi
         | Some _ = Some _ => inversion Hi; subst; clear Hi
         | _ !! ?i = Some _ => destruct i as [|i]; cbn in Hi
         end.

(** Every iteration looks its own ID up, once, whatever its outcome. *)
Lemma body_lookups (sig : RelocPatch_cpp.CodeSignature.t) (w : World)
      (r : Res unit) (w' : World) :
  RelocPatch_cpp.ApplyGamePatches_body E sig w = (r, w') ->
  exists new, added w w' new
              /\ lookups new = [RelocPatch_cpp.CodeSignature.id sig].
Proof.
  intros H. body_paths sig H.
  all: cbn; eexists; (split; [unfold added; cbn; reflexivity | reflexivity]).
Qed.

Lemma body_return_slot (sig : RelocPatch_cpp.CodeSignature.t) (w : World)
      (r : Res unit) (w' : World) :
  RelocPatch_cpp.ApplyGamePatches_body E sig w = (r, w') ->
  RelocPatch_cpp.CodeSignature.return_trampoline sig <> 0 ->
  exists new,
    added w w' new
    /\ (forall (i : nat) (e : Event),
          new !! i = Some e -> is_code_write e = true ->
          exists (n : Z) (j : nat),
            RelocPatch_cpp.HookType.Size
              (RelocPatch_cpp.CodeSignature.hook_type sig) = Ok n
            /\ (j < i)%nat
            /\ new !! j
               = Some (EvStore (RelocPatch_cpp.CodeSignature.return_trampoline sig)
                               (wrap64 (RelocPatch_cpp.real_address_of E sig + n))))
    /\ (r = Ok tt ->
        exists n : Z,
          RelocPatch_cpp.HookType.Size
            (RelocPatch_cpp.CodeSignature.hook_type sig) = Ok n
          /\ In (EvStore (RelocPatch_cpp.CodeSignature.return_trampoline sig)
                         (wrap64 (RelocPatch_cpp.real_address_of E sig + n))) new
          /\ cells w' !! RelocPatch_cpp.CodeSignature.return_trampoline sig
             = Some (wrap64 (RelocPatch_cpp.real_address_of E sig + n))).
Proof.
  intros H Hrt. body_paths sig H; cbn in Hrt; try rt_absurd.
  all: unfold RelocPatch_cpp.real_address_of; cbn.
  all: eexists; split; [unfold added; cbn; reflexivity |].
  all: split;
    [ intros i e Hi He;
      walk_trace Hi; try discriminate He;
      eexists; exists 2%nat;
      (split; [reflexivity | split; [lia | reflexivity]])
    | intros Hr; try discriminate Hr;
      eexists; (split; [reflexivity |]);
      (split; [cbn; tauto | apply lookup_insert_eq]) ].
Qed.

Ltac bool_to_prop :=
  repeat match goal with
         | Hq : negb _ = true |- _ => apply negb_true_iff in Hq
         | Hq : negb _ = false |- _ => apply negb_false_iff in Hq
         | Hq : eqb (_ =? 0) _ = true |- _ => apply eqb_prop in Hq
         | Hq : eqb (_ =? 0) _ = false |- _ => apply eqb_false_iff in Hq
         | Hq : (_ =? 0) = true |- _ => apply Z.eqb_eq in Hq
         | Hq : (_ =? 0) = false |- _ => apply Z.eqb_neq in Hq
         | Hq : (_ =? 0) <> true |- _ => apply not_true_is_false in Hq
         | Hq : (_ =? 0) <> false |- _ => apply not_false_is_true in Hq
         | Hq : (_ <=? _) = true |- _ => apply Z.leb_le in Hq
         | Hq : (_ <=? _) = false |- _ => apply Z.leb_gt in Hq
         end.

(** Past the guards, the return address is stored even when the hook
    writer fails afterwards. *)
Lemma body_return_slot_stored (sig : RelocPatch_cpp.CodeSignature.t) (n : Z)
      (w : World) (r : Res unit) (w' : World) (new : list Event) :
  RelocPatch_cpp.ApplyGamePatches_body E sig w = (r, w') ->
  added w w' new ->
  RelocPatch_cpp.CodeSignature.return_trampoline sig <> 0 ->
  default 0 (versiondb E !! RelocPatch_cpp.CodeSignature.id sig) <> 0 ->
  RelocPatch_cpp.HookType.Size (RelocPatch_cpp.CodeSignature.hook_type sig)
  = Ok n ->
  n <= RelocPatch_cpp.CodeSignature.patch_size sig ->
  RelocPatch_cpp.CodeSignature.hook sig <> 0 ->
  RelocPatch_cpp.CodeSignature.hook_type sig <> RelocPatch_cpp.HookType.None ->
  RelocPatch_cpp.CodeSignature.hook_type sig <> RelocPatch_cpp.HookType.Nop ->
  In (EvStore (RelocPatch_cpp.CodeSignature.return_trampoline sig)
              (wrap64 (RelocPatch_cpp.real_address_of E sig + n))) new.
Proof.
  intros H Hadd Hrt Hdb Hn Hle Hhook Hnone Hnop. unfold added in Hadd.
  body_paths sig H; cbn in Hadd, Hrt, Hdb, Hn, Hle, Hhook, Hnone, Hnop;
    apply app_inv_head in Hadd; subst new.
  all: try (rewrite (cpp_Size_outside _ Hout) in Hn).
  all: try discriminate Hn.
  all: inversion Hn; subst n; clear Hn.
  all: unfold RelocPatch_cpp.HookType.None, RelocPatch_cpp.HookType.Nop in *.
  all: bool_to_prop.
  all: try lia.
  all: unfold RelocPatch_cpp.real_address_of; cbn; tauto.
Qed.

Lemma wrap64_add_0 (z : Z) : wrap64 (wrap64 z + 0) = wrap64 z.
Proof. rewrite Z.add_0_r. unfold wrap64. apply Z.mod_mod. lia. Qed.

(** What a completed iteration leaves behind. *)
Lemma body_padding (sig : RelocPatch_cpp.CodeSignature.t) (w w' : World) :
  0 <= RelocPatch_cpp.CodeSignature.patch_size sig < 2 ^ 64 ->
  RelocPatch_cpp.ApplyGamePatches_body E sig w = (Ok tt, w') ->
  exists (n : Z) (new : list Event) (c : gmap Z Z),
    let start := wrap64 (RelocPatch_cpp.real_address_of E sig + n) in
    let count := RelocPatch_cpp.CodeSignature.patch_size sig - n in
    RelocPatch_cpp.HookType.Size (RelocPatch_cpp.CodeSignature.hook_type sig)
    = Ok n
    /\ 0 <= count
    /\ added w w' new
    /\ last new = Some (EvMemSet start kNop count)
    /\ List.filter is_memset new = [EvMemSet start kNop count]
    /\ code w' = fill start kNop (Z.to_nat count) c
    /\ (RelocPatch_cpp.CodeSignature.hook_type sig = RelocPatch_cpp.HookType.Nop ->
        n = 0 /\ start = RelocPatch_cpp.real_address_of E sig
        /\ c = code w /\ List.filter is_hook_write new = []).
Proof.
  intros Hps H. body_paths sig H; cbn in Hps |- *.
  all: unfold RelocPatch_cpp.real_address_of; cbn.
  all: match goal with
       | Hle : (?n <=? ?ps) = true |- _ =>
           apply Z.leb_le in Hle;
           rewrite (wrap64_small (ps - n)) by lia;
           exists n; eexists; eexists;
           (split; [reflexivity |]); (split; [lia |]);
           (split; [unfold added; cbn; reflexivity |]);
           (split; [reflexivity |]);
           (split; [reflexivity |]);
           (split; [reflexivity |]);
           intros Hnop; try discriminate Hnop
       end.
  all: split; [reflexivity |]; split; [apply wrap64_add_0 |];
    split; reflexivity.
Qed.

(** Run one iteration on a signature given by its constructor. *)
Ltac body_exec H :=
  unfold RelocPatch_cpp.ApplyGamePatches_body, RelocPatch_cpp.install_hook,
    RelocPatch_cpp.FindAddressById, RelocPatch_cpp.CodeSignature.patch,
    RelocPatch_cpp.CodeSignature.object in H;
  cbn in H; exec_in H;
  rewrite <- ?app_assoc in H; cbn in H;
  inversion H; subst; clear H.

Lemma body_None (sig : RelocPatch_cpp.CodeSignature.t) (w : World)
      (r : Res unit) (w' : World) :
  RelocPatch_cpp.CodeSignature.constructed sig ->
  RelocPatch_cpp.CodeSignature.hook_type sig = RelocPatch_cpp.HookType.None ->
  RelocPatch_cpp.ApplyGamePatches_body E sig w = (r, w') ->
  code w' = code w
  /\ (exists new, added w w' new
                  /\ Forall (fun e => is_code_write e = false) new)
  /\ (r = Ok tt ->
      RelocPatch_cpp.CodeSignature.result sig <> 0
      /\ cells w'
         = <[RelocPatch_cpp.CodeSignature.result sig
             := RelocPatch_cpp.real_address_of E sig]> (cells w))
  /\ (forall msg, r = Fault msg -> cells w' = cells w).
Proof.
  intros [(name & ht & hook & id & ps & rt & off & ->)
         | (name & id & res & ->)] Hht H.
  - cbn in Hht. subst ht. body_exec H.
    all: split; [reflexivity |].
    all: split;
      [ eexists; split; [unfold added; cbn; reflexivity | repeat constructor] |].
    all: split; [intros Hr; discriminate Hr | intros msg _; reflexivity].
  - clear Hht. body_exec H.
    all: split; [reflexivity |].
    all: split;
      [ eexists; split; [unfold added; cbn; reflexivity | repeat constructor] |].
    all: split; [intros Hr; try discriminate Hr
                | intros msg Hm; try discriminate Hm; reflexivity].
    split; [| reflexivity].
    match goal with
    | Hres : negb (res =? 0) = true |- _ =>
        apply negb_true_iff in Hres; apply Z.eqb_neq in Hres; exact Hres
    end.
Qed.

(** A hook larger than the reserved patch: the iteration faults, and has
    written nothing. *)
Lemma body_undersized (sig : RelocPatch_cpp.CodeSignature.t) (n : Z)
      (w : World) (r : Res unit) (w' : World) :
  RelocPatch_cpp.HookType.Size (RelocPatch_cpp.CodeSignature.hook_type sig)
  = Ok n ->
  RelocPatch_cpp.CodeSignature.patch_size sig < n ->
  RelocPatch_cpp.ApplyGamePatches_body E sig w = (r, w') ->
  (exists msg, r = Fault msg)
  /\ code w' = code w /\ cells w' = cells w
  /\ exists new, added w w' new
                 /\ Forall (fun e => is_memory_write e = false) new.
Proof.
  intros Hn Hlt H.
  assert (Hleb : (n <=? RelocPatch_cpp.CodeSignature.patch_size sig) = false)
    by (apply Z.leb_gt; exact Hlt).
  unfold RelocPatch_cpp.ApplyGamePatches_body, bind, lift, ASSERT, _MESSAGE,
    RelocPatch_cpp.FindAddressById in H.
  rewrite Hn, Hleb in H.
  destruct (negb (default 0 (versiondb E !! RelocPatch_cpp.CodeSignature.id sig)
                  =? 0));
    inversion H; subst; clear H; cbn.
  all: split; [eexists; reflexivity |].
  all: split; [reflexivity |]; split; [reflexivity |].
  all: eexists; split;
    [unfold added; cbn; rewrite <- ?app_assoc; reflexivity | repeat constructor].
Qed.

Ltac tags_unfold :=
  unfold RelocPatch_cpp.HookType.None, RelocPatch_cpp.HookType.Nop in *.

(** The presence of the hook must agree with the hook type: a completed
    iteration had them agree, and an iteration on a signature where they
    disagree faults, having written nothing. *)
Lemma body_hook_presence (sig : RelocPatch_cpp.CodeSignature.t) (w : World)
      (r : Res unit) (w' : World) :
  RelocPatch_cpp.ApplyGamePatches_body E sig w = (r, w') ->
  (r = Ok tt ->
   (RelocPatch_cpp.CodeSignature.hook sig <> 0
    <-> RelocPatch_cpp.CodeSignature.hook_type sig <> RelocPatch_cpp.HookType.None
        /\ RelocPatch_cpp.CodeSignature.hook_type sig <> RelocPatch_cpp.HookType.Nop))
  /\ (~ (RelocPatch_cpp.CodeSignature.hook sig <> 0
         <-> RelocPatch_cpp.CodeSignature.hook_type sig <> RelocPatch_cpp.HookType.None
             /\ RelocPatch_cpp.CodeSignature.hook_type sig <> RelocPatch_cpp.HookType.Nop) ->
      (exists msg, r = Fault msg)
      /\ code w' = code w /\ cells w' = cells w
      /\ exists new, added w w' new
                     /\ Forall (fun e => is_memory_write e = false) new).
Proof.
  intros H. body_paths sig H; cbn; tags_unfold.
  all: bool_to_prop.
  all: split; [intros Hr; try discriminate Hr; lia |].
  all: intros Hv; try (exfalso; apply Hv; lia).
  all: split; [eexists; reflexivity |].
  all: split; [reflexivity |]; split; [reflexivity |].
  all: eexists; split; [unfold added; cbn; reflexivity | repeat constructor].
Qed.



(** * ApplyGamePatches: the loop *)


Lemma loop_app (pre rest : list RelocPatch_cpp.CodeSignature.t) (w : World) :
  RelocPatch_cpp.ApplyGamePatches_loop E (pre ++ rest) w
  = match RelocPatch_cpp.ApplyGamePatches_loop E pre w with
    | (Ok _, w1) => RelocPatch_cpp.ApplyGamePatches_loop E rest w1
    | (Fault msg, w1) => (Fault msg, w1)
    end.
Proof.
  revert w. induction pre as [|d pre IH]; intros w; cbn.
  - reflexivity.
  - unfold bind.
    destruct (RelocPatch_cpp.ApplyGamePatches_body E d w) as [[[]|msg] w1];
      [apply IH | reflexivity].
Qed.


End CppFacts.

(** * Installation: ordering, padding, guards and the loop *)

Section Installation.

Variable E : Env.

Lemma cpp_Size_range (v n : Z) :
  RelocPatch_cpp.HookType.Size v = Ok n -> 0 <= n <= 6.
Proof.
  intros H.
  destruct (cpp_tag_cases v) as [->|[->|[->|[->|[->|[->|[->|[->|Hout]]]]]]]];
    try (rewrite (cpp_Size_outside _ Hout) in H; discriminate H);
    cbn in H; inversion H; lia.
Qed.

(** The value [GetRetAddr] returns is the resolved address plus the size of
    the hook. *)
Lemma GetRetAddr_value (p p' : RelocPatch_h.RelocPatch) (a : Z) (w w' : World) :
  RelocPatch_h.GetRetAddr E p w = (Ok (a, p'), w') ->
  exists n, RelocPatch_h.HookType.Size
              (RelocPatch_h.PatchSignature.hook_type (RelocPatch_h.sig p')) = Ok n
            /\ a = wrap64 (RelocPatch_h.real_address p' + n).
Proof.
  intros H. unfold RelocPatch_h.GetRetAddr, bind, lift, ret in H.
  destruct (RelocPatch_h.Resolve E p w) as [[pr|msg] wr]; [| discriminate H].
  destruct (RelocPatch_h.HookType.Size _) as [n|msg] eqn:Hn; [| discriminate H].
  inversion H; subst. exists n. split; [exact Hn | reflexivity].
Qed.

(** C1: for a signature with a return trampoline, the iteration stores
    [real_address + Size(hook_type)] (in [uintptr_t] arithmetic; the plain
    sum when it does not overflow) into the trampoline, and does so before
    any write to executable memory: in the events of the iteration, whatever
    its outcome, every hook write and every NOP fill has that store
    strictly before it.  The store is made when the iteration completes,
    and more generally whenever the signature passes the guards that come
    before it, also when the hook writer fails afterwards. *)
Theorem return_slot_written_before_hook
        (sig : RelocPatch_cpp.CodeSignature.t) (w : World)
        (r : Res unit) (w' : World) :
  RelocPatch_cpp.ApplyGamePatches_body E sig w = (r, w') ->
  RelocPatch_cpp.CodeSignature.return_trampoline sig <> 0 ->
  exists new,
    added w w' new
    /\ (forall (i : nat) (e : Event),
          new !! i = Some e -> is_code_write e = true ->
          exists (n : Z) (j : nat),
            RelocPatch_cpp.HookType.Size
              (RelocPatch_cpp.CodeSignature.hook_type sig) = Ok n
            /\ (j < i)%nat
            /\ new !! j
               = Some (EvStore (RelocPatch_cpp.CodeSignature.return_trampoline sig)
                               (wrap64 (RelocPatch_cpp.real_address_of E sig + n))))
    /\ (r = Ok tt ->
        exists n : Z,
          RelocPatch_cpp.HookType.Size
            (RelocPatch_cpp.CodeSignature.hook_type sig) = Ok n
          /\ In (EvStore (RelocPatch_cpp.CodeSignature.return_trampoline sig)
                         (wrap64 (RelocPatch_cpp.real_address_of E sig + n))) new
          /\ cells w' !! RelocPatch_cpp.CodeSignature.return_trampoline sig
             = Some (wrap64 (RelocPatch_cpp.real_address_of E sig + n))
          /\ (RelocPatch_cpp.real_address_of E sig + n < 2 ^ 64 ->
              cells w' !! RelocPatch_cpp.CodeSignature.return_trampoline sig
              = Some (RelocPatch_cpp.real_address_of E sig + n)))
    /\ (forall n : Z,
          default 0 (versiondb E !! RelocPatch_cpp.CodeSignature.id sig) <> 0 ->
          RelocPatch_cpp.HookType.Size
            (RelocPatch_cpp.CodeSignature.hook_type sig) = Ok n ->
          n <= RelocPatch_cpp.CodeSignature.patch_size sig ->
          RelocPatch_cpp.CodeSignature.hook sig <> 0 ->
          RelocPatch_cpp.CodeSignature.hook_type sig
          <> RelocPatch_cpp.HookType.None ->
          RelocPatch_cpp.CodeSignature.hook_type sig
          <> RelocPatch_cpp.HookType.Nop ->
          In (EvStore (RelocPatch_cpp.CodeSignature.return_trampoline sig)
                      (wrap64 (RelocPatch_cpp.real_address_of E sig + n))) new).
Proof.
  intros H Hrt.
  destruct (body_return_slot E _ _ _ _ H Hrt) as (new & Hadd & Hord & Hok).
  exists new. split; [exact Hadd |]. split; [exact Hord |].
  split;
    [| intros n Hdb Hn Hle Hhook Hnone Hnop;
       exact (body_return_slot_stored E _ _ _ _ _ _ H Hadd Hrt Hdb Hn Hle
                                      Hhook Hnone Hnop)].
  intros Hr. destruct (Hok Hr) as (n & Hn & Hin & Hcell).
  exists n. split; [exact Hn |]. split; [exact Hin |]. split; [exact Hcell |].
  intros Hlt. rewrite Hcell. f_equal. apply wrap64_small.
  pose proof (cpp_Size_range _ _ Hn) as Hr6.
  pose proof (wrap64_range
                (default 0 (versiondb E !! RelocPatch_cpp.CodeSignature.id sig)
                 + RelocPatch_cpp.CodeSignature.offset sig)) as Hra.
  unfold RelocPatch_cpp.real_address_of in *. lia.
Qed.

Lemma Resolve_scan_trace (p : RelocPatch_h.RelocPatch) (w : World)
      (r : Res RelocPatch_h.RelocPatch) (w1 : World) :
  RelocPatch_h.Resolve E p w = (r, w1) ->
  exists new, added w w1 new
              /\ List.filter is_memset new = []
              /\ List.filter is_hook_write new = [].
Proof.
  intros H. unfold RelocPatch_h.Resolve, RelocPatch_h.RVAScan in H.
  exec_in H; inversion H; subst; clear H; unfold added; cbn.
  - exists []. rewrite app_nil_r. repeat split; reflexivity.
  - eexists. split; [reflexivity |]. split; reflexivity.
  - eexists. split; [reflexivity |]. split; reflexivity.
Qed.

Lemma last_app_nonempty (l1 l2 : list Event) (e : Event) :
  last l2 = Some e -> last (l1 ++ l2) = Some e.
Proof.
  intros H. destruct l2 as [|x l2]; [discriminate H |].
  rewrite last_app. rewrite H. reflexivity.
Qed.

(** C3: a completed installation ends with the NOP fill
    [SafeMemSet(return address, 0x90, patch_size - Size(hook_type))], its
    only fill: exactly the [patch_size - Size(hook_type)] bytes from the
    return address on are set, and they read 0x90 afterwards.  For a [Nop]
    signature the size is 0, no hook writer is called, and the code bytes
    after the installation are the bytes before it with the whole
    [patch_size] window filled.  This holds for an iteration of
    [ApplyGamePatches] and for [RelocPatch::Apply]. *)
Theorem nop_padding :
  (forall (sig : RelocPatch_cpp.CodeSignature.t) (w w' : World),
      0 <= RelocPatch_cpp.CodeSignature.patch_size sig < 2 ^ 64 ->
      RelocPatch_cpp.ApplyGamePatches_body E sig w = (Ok tt, w') ->
      exists (n : Z) (new : list Event) (c : gmap Z Z),
        let start := wrap64 (RelocPatch_cpp.real_address_of E sig + n) in
        let count := RelocPatch_cpp.CodeSignature.patch_size sig - n in
        RelocPatch_cpp.HookType.Size
          (RelocPatch_cpp.CodeSignature.hook_type sig) = Ok n
        /\ 0 <= count
        /\ added w w' new
        /\ last new = Some (EvMemSet start kNop count)
        /\ List.filter is_memset new = [EvMemSet start kNop count]
        /\ code w' = fill start kNop (Z.to_nat count) c
        /\ (forall a, start <= a < start + count -> code w' !! a = Some 0x90)
        /\ (forall a, ~ (start <= a < start + count) -> code w' !! a = c !! a)
        /\ (RelocPatch_cpp.CodeSignature.hook_type sig
            = RelocPatch_cpp.HookType.Nop ->
            n = 0 /\ start = RelocPatch_cpp.real_address_of E sig
            /\ c = code w /\ List.filter is_hook_write new = []))
  /\
  (forall (p p' : RelocPatch_h.RelocPatch) (target : Z) (w w' : World),
      0 <= RelocPatch_h.PatchSignature.patch_size (RelocPatch_h.sig p) < 2 ^ 64 ->
      RelocPatch_h.Apply E p target w = (Ok p', w') ->
      exists (n : Z) (new : list Event) (c : gmap Z Z),
        let start := wrap64 (RelocPatch_h.real_address p' + n) in
        let count :=
          RelocPatch_h.PatchSignature.patch_size (RelocPatch_h.sig p) - n in
        RelocPatch_h.HookType.Size
          (RelocPatch_h.PatchSignature.hook_type (RelocPatch_h.sig p)) = Ok n
        /\ 0 <= count
        /\ added w w' new
        /\ last new = Some (EvMemSet start kNop count)
        /\ List.filter is_memset new = [EvMemSet start kNop count]
        /\ code w' = fill start kNop (Z.to_nat count) c
        /\ (forall a, start <= a < start + count -> code w' !! a = Some 0x90)
        /\ (forall a, ~ (start <= a < start + count) -> code w' !! a = c !! a)
        /\ (RelocPatch_h.PatchSignature.hook_type (RelocPatch_h.sig p)
            = RelocPatch_h.HookType.Nop ->
            n = 0 /\ c = code w /\ List.filter is_hook_write new = [])).
Proof.
  split.
  - intros sig w w' Hps H.
    destruct (body_padding E _ _ _ Hps H)
      as (n & new & c & Hn & Hc & Hadd & Hlast & Hms & Hcode & Hnop).
    exists n, new, c. cbn zeta in *.
    repeat (split; [assumption |]).
    split; [| split; [| exact Hnop]].
    + intros a Ha. rewrite Hcode, fill_lookup.
      case_decide; [reflexivity | lia].
    + intros a Ha. rewrite Hcode, fill_lookup.
      case_decide; [lia | reflexivity].
  - intros p p' target w w' Hps H.
    destruct (RelocPatch_h.Resolve E p w) as [[pr|msg] wr] eqn:HR.
    + rewrite (Apply_via_Resolve E _ _ _ _ _ HR) in H.
      destruct (Resolve_inv E _ _ _ _ HR) as (Hcw & _ & _ & Hok).
      destruct (Hok pr eq_refl) as (Hnz & Hsig & _).
      destruct (Resolve_scan_trace _ _ _ _ HR) as (new1 & Ha1 & Hm1 & Hh1).
      destruct (Apply_resolved_frame E _ _ _ _ _ Hnz H) as (_ & _ & Hfr).
      destruct (Hfr p' eq_refl) as (_ & _ & Hra & _).
      rewrite <- Hsig in Hps.
      destruct (Apply_resolved_padding E _ _ _ _ _ Hnz Hps H)
        as (n & new & c & Hn & Hc & Hadd & Hlast & Hms & Hcode & Hnop).
      cbn zeta in *. rewrite Hsig in *. rewrite <- Hra in *.
      exists n, (new1 ++ new), c.
      split; [exact Hn |]. split; [exact Hc |].
      split; [unfold added in *; rewrite Hadd, Ha1, app_assoc; reflexivity |].
      split; [apply last_app_nonempty; exact Hlast |].
      split; [rewrite List.filter_app, Hm1, Hms; reflexivity |].
      split; [exact Hcode |].
      split; [| split].
      * intros a Ha. rewrite Hcode, fill_lookup.
        case_decide; [reflexivity | lia].
      * intros a Ha. rewrite Hcode, fill_lookup.
        case_decide; [lia | reflexivity].
      * intros Hnp. destruct (Hnop Hnp) as (H0 & Hcc & Hhw).
        split; [exact H0 |]. split; [rewrite Hcc; exact Hcw |].
        rewrite List.filter_app, Hh1, Hhw. reflexivity.
    + unfold RelocPatch_h.Apply in H. unfold bind at 1 in H.
      rewrite HR in H. discriminate H.
Qed.


(** C7: a [None] signature, as the constructors build it, writes no
    executable memory: the code bytes are unchanged and no event of the
    iteration changes code.  When the iteration completes, its only effect
    on the data cells is that [*result] holds the resolved address; when it
    faults, the cells are unchanged too. *)
Theorem none_descriptor_only_sets_result
        (sig : RelocPatch_cpp.CodeSignature.t) (w : World)
        (r : Res unit) (w' : World) :
  RelocPatch_cpp.CodeSignature.constructed sig ->
  RelocPatch_cpp.CodeSignature.hook_type sig = RelocPatch_cpp.HookType.None ->
  RelocPatch_cpp.ApplyGamePatches_body E sig w = (r, w') ->
  code w' = code w
  /\ (exists new, added w w' new
                  /\ Forall (fun e => is_code_write e = false) new)
  /\ (r = Ok tt ->
      RelocPatch_cpp.CodeSignature.result sig <> 0
      /\ cells w'
         = <[RelocPatch_cpp.CodeSignature.result sig
             := RelocPatch_cpp.real_address_of E sig]> (cells w))
  /\ (forall msg, r = Fault msg -> cells w' = cells w).
Proof. apply body_None. Qed.

(** C8, as amended: [ApplyGamePatches] enforces that the hook is present
    exactly for the hook types other than [None] and [Nop]: a completed
    iteration had it so, and an iteration on a signature that violates it
    faults without having written anything.  [RelocPatch::Apply] takes the
    target as an argument and does not check it: for a [Nop] patch the
    target makes no difference to what [Apply] does. *)
Theorem hook_presence_enforced :
  (forall (sig : RelocPatch_cpp.CodeSignature.t) (w : World)
          (r : Res unit) (w' : World),
      RelocPatch_cpp.ApplyGamePatches_body E sig w = (r, w') ->
      (r = Ok tt ->
       (RelocPatch_cpp.CodeSignature.hook sig <> 0
        <-> RelocPatch_cpp.CodeSignature.hook_type sig
            <> RelocPatch_cpp.HookType.None
            /\ RelocPatch_cpp.CodeSignature.hook_type sig
               <> RelocPatch_cpp.HookType.Nop))
      /\ (~ (RelocPatch_cpp.CodeSignature.hook sig <> 0
             <-> RelocPatch_cpp.CodeSignature.hook_type sig
                 <> RelocPatch_cpp.HookType.None
                 /\ RelocPatch_cpp.CodeSignature.hook_type sig
                    <> RelocPatch_cpp.HookType.Nop) ->
          (exists msg, r = Fault msg)
          /\ code w' = code w /\ cells w' = cells w
          /\ exists new, added w w' new
                         /\ Forall (fun e => is_memory_write e = false) new))
  /\
  (forall (p : RelocPatch_h.RelocPatch) (target target' : Z) (w : World),
      RelocPatch_h.PatchSignature.hook_type (RelocPatch_h.sig p)
      = RelocPatch_h.HookType.Nop ->
      RelocPatch_h.Apply E p target w = RelocPatch_h.Apply E p target' w).
Proof.
  split.
  - intros sig w r w' H. exact (body_hook_presence E _ _ _ _ H).
  - intros p target target' w Hnop.
    exact (Apply_Nop_ignores_target E _ _ _ _ Hnop).
Qed.

(** C9: the guard [hook_size <= patch_size] comes before every memory
    write.  When the hook is larger than the reserved patch, an iteration
    of [ApplyGamePatches] and a call of [RelocPatch::Apply] both fault, with
    the code bytes and the data cells unchanged and no store, hook write or
    fill among their events. *)
Theorem undersized_patch_never_installed :
  (forall (sig : RelocPatch_cpp.CodeSignature.t) (n : Z) (w : World)
          (r : Res unit) (w' : World),
      RelocPatch_cpp.HookType.Size (RelocPatch_cpp.CodeSignature.hook_type sig)
      = Ok n ->
      RelocPatch_cpp.CodeSignature.patch_size sig < n ->
      RelocPatch_cpp.ApplyGamePatches_body E sig w = (r, w') ->
      (exists msg, r = Fault msg)
      /\ code w' = code w /\ cells w' = cells w
      /\ exists new, added w w' new
                     /\ Forall (fun e => is_memory_write e = false) new)
  /\
  (forall (p : RelocPatch_h.RelocPatch) (target n : Z) (w : World)
          (r : Res RelocPatch_h.RelocPatch) (w' : World),
      RelocPatch_h.HookType.Size
        (RelocPatch_h.PatchSignature.hook_type (RelocPatch_h.sig p)) = Ok n ->
      RelocPatch_h.PatchSignature.patch_size (RelocPatch_h.sig p) < n ->
      RelocPatch_h.Apply E p target w = (r, w') ->
      (exists msg, r = Fault msg)
      /\ code w' = code w /\ cells w' = cells w
      /\ exists new, added w w' new
                     /\ Forall (fun e => is_memory_write e = false) new).
Proof.
  split.
  - intros sig n w r w'. apply body_undersized.
  - intros p target n w r w'. apply Apply_undersized.
Qed.

End Installation.

(** * Examples on the fixture world *)

Example hide_run_value :
  Fixture.hide_run.1 = Ok tt
  /\ trace Fixture.hide_run.2
     = [EvFindAddressById 52527;
        EvMessage "Signature %s ([ID: %zu] + 0x%zx) is at offset 0x%zx"
                  [ArgStr "HideLegendaryButton"; ArgNum 52527; ArgNum 0x153;
                   ArgNum 0x900153];
        EvStore 0x8020 0x140900159;
        EvHookWrite Write6Branch 0x140900153 0x7020 true;
        EvMemSet 0x140900159 0x90 24]
  /\ code Fixture.hide_run.2 !! 0x140900158 = Some 0xE9
  /\ code Fixture.hide_run.2 !! 0x140900159 = Some 0x90
  /\ code Fixture.hide_run.2 !! 0x140900170 = Some 0x90
  /\ code Fixture.hide_run.2 !! 0x140900171 = None.
Proof. vm_compute. repeat split; reflexivity. Qed.

(** A [Jump6] hook with [patch_size] 7 at offset 0x62: six bytes of hook
    and a single NOP. *)
Example perk_run_value :
  Fixture.perk_run_ok.1 = Ok tt
  /\ List.filter is_memory_write (trace Fixture.perk_run_ok.2)
     = [EvHookWrite Write6Branch 0x1408f6772 0x7000 true;
        EvMemSet 0x1408f6778 0x90 1]
  /\ code Fixture.perk_run_ok.2 !! 0x1408f6777 = Some 0xE9
  /\ code Fixture.perk_run_ok.2 !! 0x1408f6778 = Some 0x90
  /\ code Fixture.perk_run_ok.2 !! 0x1408f6779 = None.
Proof. vm_compute. repeat split; reflexivity. Qed.

(** With every ID known and every write succeeding, the whole table is
    applied, in table order. *)
Example full_run_value :
  Fixture.full_run.1 = Ok tt
  /\ lookups (trace Fixture.full_run.2)
     = List.map RelocPatch_cpp.CodeSignature.id
                (RelocPatch_cpp.kGameSignatures Fixture.syms)
  /\ cells Fixture.full_run.2 !! 0x8020 = Some (0x140900153 + 6)
  /\ cells Fixture.full_run.2 !! 0x9000 = Some 0x142fc19c8.
Proof. vm_compute. repeat split; reflexivity. Qed.

Lemma return_slot_written_before_hook_witness :
  Fixture.hide_run = (Ok tt, Fixture.hide_run.2)
  /\ RelocPatch_cpp.CodeSignature.return_trampoline Fixture.hide_sig <> 0
  /\ cells Fixture.hide_run.2 !! 0x8020 = Some (0x140900153 + 6).
Proof.
  assert (Hrun : RelocPatch_cpp.ApplyGamePatches_body
                   Fixture.env Fixture.hide_sig Fixture.w0
                 = (Ok tt, Fixture.hide_run.2)) by (vm_compute; reflexivity).
  assert (Hrt : RelocPatch_cpp.CodeSignature.return_trampoline Fixture.hide_sig
                <> 0) by (vm_compute; discriminate).
  split; [exact Hrun |]. split; [exact Hrt |].
  destruct (return_slot_written_before_hook
              Fixture.env Fixture.hide_sig Fixture.w0 (Ok tt)
              Fixture.hide_run.2 Hrun Hrt) as (new & _ & _ & Hok & _).
  destruct (Hok eq_refl) as (n & Hn & _ & _ & Hexact).
  vm_compute in Hn. inversion Hn; subst n.
  apply Hexact. vm_compute. reflexivity.
Defined.

Lemma nop_padding_witness :
  (0 <= RelocPatch_cpp.CodeSignature.patch_size Fixture.hide_sig < 2 ^ 64
   /\ Fixture.hide_run = (Ok tt, Fixture.hide_run.2)
   /\ code Fixture.hide_run.2 !! (0x140900159 + 23) = Some 0x90)
  /\ (0 <= RelocPatch_h.PatchSignature.patch_size Fixture.nop_patch < 2 ^ 64
      /\ Fixture.nop_apply
         = (Ok (Fixture.object_of (RelocPatch_h.new Fixture.nop_patch)
                                  Fixture.nop_apply.1),
            Fixture.nop_apply.2)
      /\ code Fixture.nop_apply.2 !! (0x140001010 + 1) = Some 0x90).
Proof.
  split.
  - assert (Hps : 0 <= RelocPatch_cpp.CodeSignature.patch_size Fixture.hide_sig
                  < 2 ^ 64) by (vm_compute; split; [discriminate | reflexivity]).
    assert (Hrun : RelocPatch_cpp.ApplyGamePatches_body
                     Fixture.env Fixture.hide_sig Fixture.w0
                   = (Ok tt, Fixture.hide_run.2)) by (vm_compute; reflexivity).
    split; [exact Hps |]. split; [exact Hrun |].
    destruct (proj1 (nop_padding Fixture.env) Fixture.hide_sig Fixture.w0
                    Fixture.hide_run.2 Hps Hrun)
      as (n & new & c & Hn & _ & _ & _ & _ & _ & Hfilled & _).
    vm_compute in Hn. inversion Hn; subst n.
    apply Hfilled. vm_compute. split; [discriminate | reflexivity].
  - assert (Hps : 0 <= RelocPatch_h.PatchSignature.patch_size Fixture.nop_patch
                  < 2 ^ 64) by (vm_compute; split; [discriminate | reflexivity]).
    assert (Hrun : RelocPatch_h.Apply Fixture.env
                     (RelocPatch_h.new Fixture.nop_patch) 0 Fixture.w0
                   = (Ok (Fixture.object_of (RelocPatch_h.new Fixture.nop_patch)
                                            Fixture.nop_apply.1),
                      Fixture.nop_apply.2)) by (vm_compute; reflexivity).
    split; [exact Hps |]. split; [exact Hrun |].
    destruct (proj2 (nop_padding Fixture.env)
                    (RelocPatch_h.new Fixture.nop_patch) _ 0 Fixture.w0
                    Fixture.nop_apply.2 Hps Hrun)
      as (n & new & c & Hn & _ & _ & _ & _ & _ & Hfilled & _).
    vm_compute in Hn. inversion Hn; subst n.
    apply Hfilled. vm_compute. split; [discriminate | reflexivity].
Defined.

Lemma apply_single_shot_witness :
  Fixture.branch_apply
  = (Ok (Fixture.object_of (RelocPatch_h.new Fixture.branch_patch)
                           Fixture.branch_apply.1),
     Fixture.branch_apply.2)
  /\ RelocPatch_h.Apply Fixture.env
       (Fixture.object_of (RelocPatch_h.new Fixture.branch_patch)
                          Fixture.branch_apply.1)
       0x7010 Fixture.branch_apply.2
     = (Fault "!hook_done", Fixture.branch_apply.2).
Proof.
  assert (Hrun : RelocPatch_h.Apply Fixture.env
                   (RelocPatch_h.new Fixture.branch_patch) 0x7010 Fixture.w0
                 = (Ok (Fixture.object_of (RelocPatch_h.new Fixture.branch_patch)
                                          Fixture.branch_apply.1),
                    Fixture.branch_apply.2)) by (vm_compute; reflexivity).
  split; [exact Hrun |].
  assert (Hcall : RelocPatch_h.GetRetAddr Fixture.env
                    (Fixture.object_of (RelocPatch_h.new Fixture.branch_patch)
                                       Fixture.branch_apply.1)
                    Fixture.branch_apply.2
                  = (Ok (0x140001076 + 6,
                         Fixture.object_of
                           (RelocPatch_h.new Fixture.branch_patch)
                           Fixture.branch_apply.1),
                     Fixture.branch_apply.2)) by (vm_compute; reflexivity).
  apply (apply_single_shot Fixture.env _ _ _ _ _ _ _ Hrun
           (calls_step _ _ _ _ (call_GetRetAddr _ _ _ _ _ _ Hcall)
                       (calls_none _ _))).
Defined.

Lemma resolution_memoized_witness :
  Fixture.branch_get
  = (Ok (0x140001076,
         (Fixture.object_of (0, RelocPatch_h.new Fixture.branch_patch)
                            Fixture.branch_get.1).2),
     Fixture.branch_get.2)
  /\ scans Fixture.branch_get.2 = 1%nat
  /\ RelocPatch_h.GetUIntPtr Fixture.env
       (Fixture.object_of (0, RelocPatch_h.new Fixture.branch_patch)
                          Fixture.branch_get.1).2
       Fixture.branch_get.2
     = (Ok (0x140001076,
            (Fixture.object_of (0, RelocPatch_h.new Fixture.branch_patch)
                               Fixture.branch_get.1).2),
        Fixture.branch_get.2).
Proof.
  assert (Hrun : RelocPatch_h.GetUIntPtr Fixture.env
                   (RelocPatch_h.new Fixture.branch_patch) Fixture.w0
                 = (Ok (0x140001076,
                        (Fixture.object_of
                           (0, RelocPatch_h.new Fixture.branch_patch)
                           Fixture.branch_get.1).2),
                    Fixture.branch_get.2)) by (vm_compute; reflexivity).
  split; [exact Hrun |]. split; [vm_compute; reflexivity |].
  assert (Hcall : RelocPatch_h.operator_star Fixture.env
                    (Fixture.object_of
                       (0, RelocPatch_h.new Fixture.branch_patch)
                       Fixture.branch_get.1).2
                    Fixture.branch_get.2
                  = (Ok (0x140001076,
                         (Fixture.object_of
                            (0, RelocPatch_h.new Fixture.branch_patch)
                            Fixture.branch_get.1).2),
                     Fixture.branch_get.2)) by (vm_compute; reflexivity).
  destruct (resolution_memoized Fixture.env _ _ _ _ _ _ _ Hrun
              (calls_step _ _ _ _ (call_operator_star _ _ _ _ _ _ Hcall)
                          (calls_none _ _)))
    as (_ & _ & _ & _ & _ & Hagain).
  exact (proj2 (Hagain Fixture.branch_get.2)).
Defined.


Lemma none_descriptor_only_sets_result_witness :
  RelocPatch_cpp.CodeSignature.constructed Fixture.player_sig
  /\ RelocPatch_cpp.CodeSignature.hook_type Fixture.player_sig
     = RelocPatch_cpp.HookType.None
  /\ Fixture.player_run = (Ok tt, Fixture.player_run.2)
  /\ code Fixture.player_run.2 = code Fixture.w0
  /\ cells Fixture.player_run.2 !! 0x9000 = Some 0x142fc19c8.
Proof.
  assert (Hc : RelocPatch_cpp.CodeSignature.constructed Fixture.player_sig)
    by (right; exists "g_thePlayer", 403521, 0x9000; reflexivity).
  assert (Hht : RelocPatch_cpp.CodeSignature.hook_type Fixture.player_sig
                = RelocPatch_cpp.HookType.None) by reflexivity.
  assert (Hrun : RelocPatch_cpp.ApplyGamePatches_body
                   Fixture.env Fixture.player_sig Fixture.w0
                 = (Ok tt, Fixture.player_run.2)) by (vm_compute; reflexivity).
  split; [exact Hc |]. split; [exact Hht |]. split; [exact Hrun |].
  destruct (none_descriptor_only_sets_result
              Fixture.env Fixture.player_sig Fixture.w0 (Ok tt)
              Fixture.player_run.2 Hc Hht Hrun) as (Hcode & _ & Hok & _).
  split; [exact Hcode |].
  destruct (Hok eq_refl) as (_ & Hcells). rewrite Hcells.
  vm_compute. reflexivity.
Defined.

Lemma hook_presence_enforced_witness :
  (~ (RelocPatch_cpp.CodeSignature.hook Fixture.bad_sig <> 0
      <-> RelocPatch_cpp.CodeSignature.hook_type Fixture.bad_sig
          <> RelocPatch_cpp.HookType.None
          /\ RelocPatch_cpp.CodeSignature.hook_type Fixture.bad_sig
             <> RelocPatch_cpp.HookType.Nop))
  /\ (exists msg, Fixture.bad_run.1 = Fault msg)
  /\ code Fixture.bad_run.2 = code Fixture.w0
  /\ RelocPatch_h.Apply Fixture.env (RelocPatch_h.new Fixture.nop_patch)
                        0 Fixture.w0
     = RelocPatch_h.Apply Fixture.env (RelocPatch_h.new Fixture.nop_patch)
                          0x7000 Fixture.w0.
Proof.
  assert (Hbad : ~ (RelocPatch_cpp.CodeSignature.hook Fixture.bad_sig <> 0
                    <-> RelocPatch_cpp.CodeSignature.hook_type Fixture.bad_sig
                        <> RelocPatch_cpp.HookType.None
                        /\ RelocPatch_cpp.CodeSignature.hook_type Fixture.bad_sig
                           <> RelocPatch_cpp.HookType.Nop))
    by (vm_compute; lia).
  assert (Hrun : RelocPatch_cpp.ApplyGamePatches_body
                   Fixture.env Fixture.bad_sig Fixture.w0
                 = (Fixture.bad_run.1, Fixture.bad_run.2))
    by (vm_compute; reflexivity).
  split; [exact Hbad |].
  destruct (proj2 (proj1 (hook_presence_enforced Fixture.env)
                         Fixture.bad_sig Fixture.w0 _ _ Hrun) Hbad)
    as (Hmsg & Hcode & _).
  split; [exact Hmsg |]. split; [exact Hcode |].
  apply (proj2 (hook_presence_enforced Fixture.env)). reflexivity.
Defined.

Lemma undersized_patch_never_installed_witness :
  (RelocPatch_cpp.HookType.Size
     (RelocPatch_cpp.CodeSignature.hook_type Fixture.short_sig) = Ok 6
   /\ RelocPatch_cpp.CodeSignature.patch_size Fixture.short_sig < 6
   /\ (exists msg, Fixture.short_run.1 = Fault msg)
   /\ code Fixture.short_run.2 = code Fixture.w0
   /\ cells Fixture.short_run.2 = cells Fixture.w0)
  /\ (RelocPatch_h.HookType.Size
        (RelocPatch_h.PatchSignature.hook_type Fixture.short_patch) = Ok 6
      /\ RelocPatch_h.PatchSignature.patch_size Fixture.short_patch < 6
      /\ (exists msg, Fixture.short_apply.1 = Fault msg)
      /\ code Fixture.short_apply.2 = code Fixture.w0
      /\ cells Fixture.short_apply.2 = cells Fixture.w0).
Proof.
  split.
  - assert (Hn : RelocPatch_cpp.HookType.Size
                   (RelocPatch_cpp.CodeSignature.hook_type Fixture.short_sig)
                 = Ok 6) by reflexivity.
    assert (Hlt : RelocPatch_cpp.CodeSignature.patch_size Fixture.short_sig < 6)
      by (vm_compute; reflexivity).
    assert (Hrun : RelocPatch_cpp.ApplyGamePatches_body
                     Fixture.env Fixture.short_sig Fixture.w0
                   = (Fixture.short_run.1, Fixture.short_run.2))
      by (vm_compute; reflexivity).
    split; [exact Hn |]. split; [exact Hlt |].
    destruct (proj1 (undersized_patch_never_installed Fixture.env)
                    Fixture.short_sig 6 Fixture.w0 _ _ Hn Hlt Hrun)
      as (Hmsg & Hcode & Hcells & _).
    split; [exact Hmsg |]. split; [exact Hcode | exact Hcells].
  - assert (Hn : RelocPatch_h.HookType.Size
                   (RelocPatch_h.PatchSignature.hook_type Fixture.short_patch)
                 = Ok 6) by reflexivity.
    assert (Hlt : RelocPatch_h.PatchSignature.patch_size Fixture.short_patch < 6)
      by (vm_compute; reflexivity).
    assert (Hrun : RelocPatch_h.Apply Fixture.env
                     (RelocPatch_h.new Fixture.short_patch) 0x7010 Fixture.w0
                   = (Fixture.short_apply.1, Fixture.short_apply.2))
      by (vm_compute; reflexivity).
    split; [exact Hn |]. split; [exact Hlt |].
    destruct (proj2 (undersized_patch_never_installed Fixture.env)
                    (RelocPatch_h.new Fixture.short_patch) 0x7010 6
                    Fixture.w0 _ _ Hn Hlt Hrun)
      as (Hmsg & Hcode & Hcells & _).
    split; [exact Hmsg |]. split; [exact Hcode | exact Hcells].
Defined.

(** C8, as stated, fails for [RelocPatch::Apply]: it completes with a
    target given to a [Nop] patch, and with no target (0) given to a
    [Branch6] patch. *)
Lemma Apply_accepts_violating_target :
  (RelocPatch_h.PatchSignature.hook_type Fixture.nop_patch
   = RelocPatch_h.HookType.Nop
   /\ 0x7000 <> 0
   /\ exists p' w',
       RelocPatch_h.Apply Fixture.env (RelocPatch_h.new Fixture.nop_patch)
                          0x7000 Fixture.w0 = (Ok p', w'))
  /\ (RelocPatch_h.PatchSignature.hook_type Fixture.branch_patch
      = RelocPatch_h.HookType.Branch6
      /\ exists p' w',
          RelocPatch_h.Apply Fixture.env (RelocPatch_h.new Fixture.branch_patch)
                             0 Fixture.w0 = (Ok p', w')).
Proof.
  split.
  - split; [reflexivity |]. split; [discriminate |].
    eexists; eexists. vm_compute. reflexivity.
  - split; [reflexivity |].
    eexists; eexists. vm_compute. reflexivity.
Qed.

(** * More on one iteration of ApplyGamePatches *)

(** One goal per path through an iteration, with the result substituted. *)
Ltac iteration_paths sig H :=
  unfold RelocPatch_cpp.ApplyGamePatches_body in H;
  destruct sig as [name ht hook id ps off rt res];
  destruct (cpp_tag_cases ht)
    as [->|[->|[->|[->|[->|[->|[->|[->|Hout]]]]]]]];
  [ .. | cbn in H; rewrite (cpp_Size_outside _ Hout) in H ];
  unfold RelocPatch_cpp.install_hook, RelocPatch_cpp.FindAddressById in H;
  cbn in H; exec_in H;
  rewrite <- ?app_assoc in H; cbn in H;
  inversion H; subst; clear H.

Ltac guard_facts :=
  unfold RelocPatch_cpp.HookType.None, RelocPatch_cpp.HookType.Nop in *;
  repeat match goal with
         | Hq : negb _ = true |- _ => apply negb_true_iff in Hq
         | Hq : negb _ = false |- _ => apply negb_false_iff in Hq
         | Hq : eqb (_ =? 0) _ = true |- _ => apply eqb_prop in Hq
         | Hq : eqb (_ =? 0) _ = false |- _ => apply eqb_false_iff in Hq
         | Hq : (_ =? 0) = true |- _ => apply Z.eqb_eq in Hq
         | Hq : (_ =? 0) = false |- _ => apply Z.eqb_neq in Hq
         | Hq : (_ =? 0) <> true |- _ => apply not_true_is_false in Hq
         | Hq : (_ =? 0) <> false |- _ => apply not_false_is_true in Hq
         | Hq : (_ <=? _) = true |- _ => apply Z.leb_le in Hq
         | Hq : (_ <=? _) = false |- _ => apply Z.leb_gt in Hq
         end.

Section IterationFacts.

Variable E : Env.

Lemma iteration_guards (sig : RelocPatch_cpp.CodeSignature.t) (w w' : World) :
  RelocPatch_cpp.ApplyGamePatches_body E sig w = (Ok tt, w') ->
  passes_guards E sig.
Proof.
  intros H. iteration_paths sig H; unfold passes_guards; cbn; guard_facts.
  all: split; [assumption |].
  all: split; [eexists; split; [reflexivity | lia] |].
  all: split; [lia |]; split; lia.
Qed.

Lemma iteration_completes (sig : RelocPatch_cpp.CodeSignature.t) (w : World) :
  writes_succeed E -> passes_guards E sig ->
  exists w', RelocPatch_cpp.ApplyGamePatches_body E sig w = (Ok tt, w').
Proof.
  intros Hw (Hdb & (n & Hn & Hle) & Hhook & Hrt & Hres).
  destruct (RelocPatch_cpp.ApplyGamePatches_body E sig w) as [r w'] eqn:H.
  iteration_paths sig H; cbn in Hdb, Hn, Hle, Hhook, Hrt, Hres.
  all: try (rewrite (cpp_Size_outside _ Hout) in Hn).
  all: try discriminate Hn.
  all: inversion Hn; subst n; clear Hn.
  all: try (eexists; reflexivity).
  all: try match goal with
           | Hp : hook_write E ?k ?a ?t ?w0 = (false, _) |- _ =>
               pose proof (Hw k a t w0) as Hok; rewrite Hp in Hok;
               discriminate Hok
           end.
  all: exfalso; guard_facts; lia.
Qed.

(** An iteration stores through the signature's own two pointers only. *)
Lemma iteration_cells_frame (sig : RelocPatch_cpp.CodeSignature.t) (w : World)
      (r : Res unit) (w' : World) (a : Z) :
  RelocPatch_cpp.ApplyGamePatches_body E sig w = (r, w') ->
  a <> RelocPatch_cpp.CodeSignature.return_trampoline sig ->
  a <> RelocPatch_cpp.CodeSignature.result sig ->
  cells w' !! a = cells w !! a.
Proof.
  intros H Hrt Hres. iteration_paths sig H; cbn in Hrt, Hres |- *.
  all: rewrite ?lookup_insert_ne by congruence; reflexivity.
Qed.

Lemma iteration_publishes (sig : RelocPatch_cpp.CodeSignature.t) (w w' : World) :
  RelocPatch_cpp.ApplyGamePatches_body E sig w = (Ok tt, w') ->
  (RelocPatch_cpp.CodeSignature.hook_type sig = RelocPatch_cpp.HookType.None ->
   cells w' !! RelocPatch_cpp.CodeSignature.result sig
   = Some (RelocPatch_cpp.real_address_of E sig))
  /\ (RelocPatch_cpp.CodeSignature.return_trampoline sig <> 0 ->
      exists n,
        RelocPatch_cpp.HookType.Size (RelocPatch_cpp.CodeSignature.hook_type sig)
        = Ok n
        /\ cells w' !! RelocPatch_cpp.CodeSignature.return_trampoline sig
           = Some (wrap64 (RelocPatch_cpp.real_address_of E sig + n))).
Proof.
  intros H. iteration_paths sig H; unfold RelocPatch_cpp.real_address_of; cbn.
  all: guard_facts.
  all: split;
    [ intros Hnone; try discriminate Hnone; apply lookup_insert_eq
    | intros Hrt; try contradiction;
      eexists; (split; [reflexivity | apply lookup_insert_eq]) ].
Qed.

(** The "Signature" line is written exactly when the ID resolved. *)
Lemma iteration_signature_line (sig : RelocPatch_cpp.CodeSignature.t)
      (w : World) (r : Res unit) (w' : World) (new : list Event) :
  RelocPatch_cpp.ApplyGamePatches_body E sig w = (r, w') ->
  added w w' new ->
  signature_lines new
  = (if default 0 (versiondb E !! RelocPatch_cpp.CodeSignature.id sig) =? 0
     then [] else [signature_line E sig])
  /\ ~ In (EvMessage "Finished applying game patches!" []) new
  /\ (r = Ok tt ->
      default 0 (versiondb E !! RelocPatch_cpp.CodeSignature.id sig) <> 0).
Proof.
  intros H Hadd. unfold added in Hadd.
  iteration_paths sig H; cbn in Hadd; apply app_inv_head in Hadd; subst new.
  all: unfold signature_line, RelocPatch_cpp.real_address_of; cbn.
  all: guard_facts.
  all: match goal with
       | Hz : default 0 _ = 0 |- _ => rewrite Hz
       | Hnz : default 0 _ <> 0 |- _ =>
           apply Z.eqb_neq in Hnz; rewrite Hnz; apply Z.eqb_neq in Hnz
       end; cbn.
  all: split; [reflexivity |].
  all: split;
    [ intros Hin;
      repeat (destruct Hin as [Hin | Hin]; [discriminate Hin |]);
      contradiction
    | intros Hr; try discriminate Hr; assumption ].
Qed.

(** X10: a completed iteration called the hook writer once for an
    injectable type, at the resolved address and with the signature's hook,
    and the writer it called writes as many bytes as [HookType::Size]
    reports, so the return address and the NOP fill start right behind the
    hook; for [None] and [Nop] it called no writer. *)
Theorem hook_write_matches_size (sig : RelocPatch_cpp.CodeSignature.t)
      (w w' : World) (new : list Event) :
  RelocPatch_cpp.ApplyGamePatches_body E sig w = (Ok tt, w') ->
  added w w' new ->
  exists n : Z,
    RelocPatch_cpp.HookType.Size (RelocPatch_cpp.CodeSignature.hook_type sig)
    = Ok n
    /\ (((RelocPatch_cpp.CodeSignature.hook_type sig = RelocPatch_cpp.HookType.None
          \/ RelocPatch_cpp.CodeSignature.hook_type sig = RelocPatch_cpp.HookType.Nop)
         /\ n = 0 /\ List.filter is_hook_write new = [])
        \/ (RelocPatch_cpp.CodeSignature.hook_type sig <> RelocPatch_cpp.HookType.None
            /\ RelocPatch_cpp.CodeSignature.hook_type sig <> RelocPatch_cpp.HookType.Nop
            /\ exists k : HookWriter,
                HookWriter_bytes k = n
                /\ List.filter is_hook_write new
                   = [EvHookWrite k (RelocPatch_cpp.real_address_of E sig)
                                  (RelocPatch_cpp.CodeSignature.hook sig) true])).
Proof.
  intros H Hadd. unfold added in Hadd.
  iteration_paths sig H; cbn in Hadd; apply app_inv_head in Hadd; subst new.
  all: unfold RelocPatch_cpp.real_address_of; cbn.
  all: eexists; split; [reflexivity |].
  all: first
         [ left; split; [(left; reflexivity) || (right; reflexivity) |];
           split; reflexivity
         | right; split; [discriminate |]; split; [discriminate |];
           eexists; (split; [| reflexivity]); reflexivity ].
Qed.

End IterationFacts.

(** * More on the loop and the table *)

Section TableFacts.

Variable E : Env.

Lemma signature_lines_app (l1 l2 : list Event) :
  signature_lines (l1 ++ l2) = signature_lines l1 ++ signature_lines l2.
Proof. unfold signature_lines. apply flat_map_app. Qed.

(** The run over a table is the prologue, the loop, and the closing log
    line when the loop completed. *)
Lemma table_run (sigs : list RelocPatch_cpp.CodeSignature.t) (w : World) :
  RelocPatch_cpp.ApplyGamePatches_table E sigs w
  = match RelocPatch_cpp.ApplyGamePatches_loop E sigs
            (emit EvDbLoad (emit (EvMessage "Applying game patches..." []) w))
    with
    | (Ok _, w1) =>
        (Ok tt, emit (EvMessage "Finished applying game patches!" []) w1)
    | (Fault msg, w1) => (Fault msg, w1)
    end.
Proof.
  unfold RelocPatch_cpp.ApplyGamePatches_table, bind, _MESSAGE,
    RelocPatch_cpp.Load.
  destruct (RelocPatch_cpp.ApplyGamePatches_loop E sigs _) as [[[]|msg] w1];
    reflexivity.
Qed.

Lemma loop_guards (sigs : list RelocPatch_cpp.CodeSignature.t) :
  forall w w' : World,
    RelocPatch_cpp.ApplyGamePatches_loop E sigs w = (Ok tt, w') ->
    Forall (passes_guards E) sigs.
Proof.
  induction sigs as [|d sigs IH]; intros w w' H; [constructor |].
  cbn in H. unfold bind in H.
  destruct (RelocPatch_cpp.ApplyGamePatches_body E d w) as [[[]|msg] w1] eqn:Hd;
    [| discriminate H].
  constructor; [exact (iteration_guards E _ _ _ Hd) | exact (IH _ _ H)].
Qed.

Lemma loop_completes (sigs : list RelocPatch_cpp.CodeSignature.t) :
  writes_succeed E -> Forall (passes_guards E) sigs ->
  forall w : World,
  exists w', RelocPatch_cpp.ApplyGamePatches_loop E sigs w = (Ok tt, w').
Proof.
  intros Hw Hall. induction Hall as [|d sigs Hd _ IH]; intros w.
  - exists w. reflexivity.
  - destruct (iteration_completes E d w Hw Hd) as [w1 H1].
    destruct (IH w1) as [w' H']. exists w'.
    cbn. unfold bind. rewrite H1. exact H'.
Qed.

Lemma loop_cells_frame (sigs : list RelocPatch_cpp.CodeSignature.t) (a : Z) :
  Forall (fun s => a <> RelocPatch_cpp.CodeSignature.return_trampoline s
                   /\ a <> RelocPatch_cpp.CodeSignature.result s) sigs ->
  forall (w : World) (r : Res unit) (w' : World),
    RelocPatch_cpp.ApplyGamePatches_loop E sigs w = (r, w') ->
    cells w' !! a = cells w !! a.
Proof.
  intros Hall. induction Hall as [|d sigs [Hrt Hres] _ IH]; intros w r w' H.
  - cbn in H. unfold ret in H. inversion H; subst. reflexivity.
  - cbn in H. unfold bind in H.
    destruct (RelocPatch_cpp.ApplyGamePatches_body E d w) as [[[]|msg] w1] eqn:Hd.
    + rewrite (IH _ _ _ H). exact (iteration_cells_frame E _ _ _ _ _ Hd Hrt Hres).
    + inversion H; subst.
      exact (iteration_cells_frame E _ _ _ _ _ Hd Hrt Hres).
Qed.

Lemma loop_log (sigs : list RelocPatch_cpp.CodeSignature.t) :
  forall (w : World) (r : Res unit) (w' : World),
    RelocPatch_cpp.ApplyGamePatches_loop E sigs w = (r, w') ->
    exists new,
      added w w' new
      /\ signature_lines new `prefix_of` List.map (signature_line E) sigs
      /\ (r = Ok tt -> signature_lines new = List.map (signature_line E) sigs)
      /\ ~ In (EvMessage "Finished applying game patches!" []) new.
Proof.
  induction sigs as [|d sigs IH]; intros w r w' H.
  - cbn in H. unfold ret in H. inversion H; subst. exists [].
    split; [unfold added; rewrite app_nil_r; reflexivity |].
    split; [reflexivity |]. split; [reflexivity | intros []].
  - cbn in H. unfold bind in H.
    destruct (RelocPatch_cpp.ApplyGamePatches_body E d w) as [[[]|msg] w1] eqn:Hd.
    + destruct (body_lookups E _ _ _ _ Hd) as (new1 & Ha1 & _).
      destruct (iteration_signature_line E _ _ _ _ _ Hd Ha1) as (Hl1 & Hf1 & Hk).
      specialize (Hk eq_refl). apply Z.eqb_neq in Hk. rewrite Hk in Hl1.
      destruct (IH _ _ _ H) as (new2 & Ha2 & Hp2 & He2 & Hf2).
      exists (new1 ++ new2).
      split; [unfold added in *; rewrite Ha2, Ha1, app_assoc; reflexivity |].
      rewrite signature_lines_app, Hl1. cbn.
      split; [apply prefix_cons; exact Hp2 |].
      split; [intros Hr; rewrite (He2 Hr); reflexivity |].
      intros Hin. apply in_app_or in Hin. tauto.
    + inversion H; subst.
      destruct (body_lookups E _ _ _ _ Hd) as (new1 & Ha1 & _).
      destruct (iteration_signature_line E _ _ _ _ _ Hd Ha1) as (Hl1 & Hf1 & _).
      exists new1. split; [exact Ha1 |]. rewrite Hl1.
      split; [| split; [intros Hr; discriminate Hr | exact Hf1]].
      destruct (_ =? 0); cbn; [apply prefix_nil |].
      apply prefix_cons, prefix_nil.
Qed.

Lemma loop_split (pre post : list RelocPatch_cpp.CodeSignature.t)
      (d : RelocPatch_cpp.CodeSignature.t) (w w' : World) :
  RelocPatch_cpp.ApplyGamePatches_loop E (pre ++ d :: post) w = (Ok tt, w') ->
  exists w1 w2,
    RelocPatch_cpp.ApplyGamePatches_loop E pre w = (Ok tt, w1)
    /\ RelocPatch_cpp.ApplyGamePatches_body E d w1 = (Ok tt, w2)
    /\ RelocPatch_cpp.ApplyGamePatches_loop E post w2 = (Ok tt, w').
Proof.
  intros H. rewrite loop_app in H.
  destruct (RelocPatch_cpp.ApplyGamePatches_loop E pre w)
    as [[[]|msg] w1] eqn:Hpre; [| discriminate H].
  cbn in H. unfold bind in H.
  destruct (RelocPatch_cpp.ApplyGamePatches_body E d w1)
    as [[[]|msg] w2] eqn:Hd; [| discriminate H].
  exists w1, w2. split; [reflexivity |]. split; [exact Hd | exact H].
Qed.

Lemma table_completed (sigs : list RelocPatch_cpp.CodeSignature.t)
      (w w' : World) :
  RelocPatch_cpp.ApplyGamePatches_table E sigs w = (Ok tt, w') ->
  exists w1,
    RelocPatch_cpp.ApplyGamePatches_loop E sigs
      (emit EvDbLoad (emit (EvMessage "Applying game patches..." []) w))
    = (Ok tt, w1)
    /\ w' = emit (EvMessage "Finished applying game patches!" []) w1.
Proof.
  intros H. rewrite table_run in H.
  destruct (RelocPatch_cpp.ApplyGamePatches_loop E sigs _) as [[[]|msg] w1];
    [| discriminate H].
  inversion H; subst. exists w1. split; reflexivity.
Qed.

(** X1: when every hook write succeeds, a run over a table completes
    exactly when every entry passes the guards of the loop body; a completed
    run had every entry pass them, whatever the writers do. *)
Theorem table_completes_iff_guards
        (sigs : list RelocPatch_cpp.CodeSignature.t) (w : World) :
  writes_succeed E ->
  ((exists w', RelocPatch_cpp.ApplyGamePatches_table E sigs w = (Ok tt, w'))
   <-> Forall (passes_guards E) sigs).
Proof.
  intros Hw. split.
  - intros [w' H]. destruct (table_completed _ _ _ H) as (w1 & Hl & _).
    exact (loop_guards _ _ _ Hl).
  - intros Hall.
    destruct (loop_completes sigs Hw Hall
                (emit EvDbLoad (emit (EvMessage "Applying game patches..." []) w)))
      as [w1 Hl].
    eexists. rewrite table_run, Hl. reflexivity.
Qed.

(** X2: a run over a table, whatever its outcome, leaves every data cell
    alone that is neither the return trampoline nor the result pointer of
    one of the entries. *)
Theorem table_cells_frame
        (sigs : list RelocPatch_cpp.CodeSignature.t) (a : Z)
        (w : World) (r : Res unit) (w' : World) :
  Forall (fun s => a <> RelocPatch_cpp.CodeSignature.return_trampoline s
                   /\ a <> RelocPatch_cpp.CodeSignature.result s) sigs ->
  RelocPatch_cpp.ApplyGamePatches_table E sigs w = (r, w') ->
  cells w' !! a = cells w !! a.
Proof.
  intros Hall H. rewrite table_run in H.
  destruct (RelocPatch_cpp.ApplyGamePatches_loop E sigs _) as [[[]|msg] w1] eqn:Hl;
    inversion H; subst; cbn;
    rewrite (loop_cells_frame sigs a Hall _ _ _ Hl); reflexivity.
Qed.

(** X3: what an entry published is still there when the run has
    completed, unless a later entry writes through the same pointer: the
    result pointer of a [None] entry holds its resolved address, and the
    return trampoline of an entry holds the resolved address plus the size
    of its hook. *)
Theorem published_value_survives
        (pre post : list RelocPatch_cpp.CodeSignature.t)
        (d : RelocPatch_cpp.CodeSignature.t) (c : Z) (w w' : World) :
  RelocPatch_cpp.ApplyGamePatches_table E (pre ++ d :: post) w = (Ok tt, w') ->
  Forall (fun s => c <> RelocPatch_cpp.CodeSignature.return_trampoline s
                   /\ c <> RelocPatch_cpp.CodeSignature.result s) post ->
  (RelocPatch_cpp.CodeSignature.hook_type d = RelocPatch_cpp.HookType.None ->
   c = RelocPatch_cpp.CodeSignature.result d ->
   cells w' !! c = Some (RelocPatch_cpp.real_address_of E d))
  /\ (RelocPatch_cpp.CodeSignature.return_trampoline d <> 0 ->
      c = RelocPatch_cpp.CodeSignature.return_trampoline d ->
      exists n,
        RelocPatch_cpp.HookType.Size (RelocPatch_cpp.CodeSignature.hook_type d)
        = Ok n
        /\ cells w' !! c = Some (wrap64 (RelocPatch_cpp.real_address_of E d + n))).
Proof.
  intros H Hpost.
  destruct (table_completed _ _ _ H) as (wl & Hl & ->).
  destruct (loop_split _ _ _ _ _ Hl) as (w1 & w2 & _ & Hd & Hp).
  pose proof (loop_cells_frame post c Hpost _ _ _ Hp) as Hfr.
  destruct (iteration_publishes E _ _ _ Hd) as (Hres & Hrt).
  cbn. rewrite Hfr. split.
  - intros Hnone ->. exact (Hres Hnone).
  - intros Hnz ->. exact (Hrt Hnz).
Qed.

(** X4: the "Signature" lines of the log follow the table: whatever the
    outcome, the lines written are those of an initial part of the table,
    in table order, each with the entry's name, ID, offset and address
    relative to the load base; a completed run wrote the line of every
    entry. *)
Theorem signature_log_follows_table
        (sigs : list RelocPatch_cpp.CodeSignature.t)
        (w : World) (r : Res unit) (w' : World) (new : list Event) :
  RelocPatch_cpp.ApplyGamePatches_table E sigs w = (r, w') ->
  added w w' new ->
  signature_lines new `prefix_of` List.map (signature_line E) sigs
  /\ (r = Ok tt -> signature_lines new = List.map (signature_line E) sigs).
Proof.
  intros H Hadd. rewrite table_run in H.
  destruct (RelocPatch_cpp.ApplyGamePatches_loop E sigs _) as [[[]|msg] w1] eqn:Hl;
    inversion H; subst; clear H;
    destruct (loop_log _ _ _ _ Hl) as (newl & Hal & Hp & He & _);
    unfold added in Hadd, Hal; cbn in Hadd, Hal; rewrite Hal in Hadd;
    rewrite <- ?app_assoc in Hadd; apply app_inv_head in Hadd; subst new;
    cbn; rewrite ?signature_lines_app; cbn; rewrite ?app_nil_r.
  - split; [rewrite (He eq_refl); reflexivity | intros _; exact (He eq_refl)].
  - split; [exact Hp | intros Hr; discriminate Hr].
Qed.

(** X5: the log says "Finished applying game patches!" exactly when the
    run completed, and then as its last line; every run starts its log with
    "Applying game patches...". *)
Theorem finished_logged_iff_completed
        (sigs : list RelocPatch_cpp.CodeSignature.t)
        (w : World) (r : Res unit) (w' : World) (new : list Event) :
  RelocPatch_cpp.ApplyGamePatches_table E sigs w = (r, w') ->
  added w w' new ->
  (In (EvMessage "Finished applying game patches!" []) new <-> r = Ok tt)
  /\ (r = Ok tt ->
      last new = Some (EvMessage "Finished applying game patches!" []))
  /\ head new = Some (EvMessage "Applying game patches..." []).
Proof.
  intros H Hadd. rewrite table_run in H.
  destruct (RelocPatch_cpp.ApplyGamePatches_loop E sigs _) as [[[]|msg] w1] eqn:Hl;
    inversion H; subst; clear H;
    destruct (loop_log _ _ _ _ Hl) as (newl & Hal & _ & _ & Hnf);
    unfold added in Hadd, Hal; cbn in Hadd, Hal; rewrite Hal in Hadd;
    rewrite <- ?app_assoc in Hadd; apply app_inv_head in Hadd; subst new; cbn.
  - split; [| split; [| reflexivity]].
    + split; [reflexivity |]. intros _. do 2 right.
      apply in_or_app. right. left. reflexivity.
    + intros _.
      change (EvDbLoad :: newl ++ [EvMessage "Finished applying game patches!" []])
        with ((EvDbLoad :: newl)
                ++ [EvMessage "Finished applying game patches!" []]).
      apply last_snoc.
  - split; [| split; [intros Hr; discriminate Hr | reflexivity]].
    split; [| intros Hr; discriminate Hr].
    intros [Hin | [Hin | Hin]]; [discriminate Hin | discriminate Hin |].
    contradiction.
Qed.

End TableFacts.

(** * The table of the game *)

(** Split the facts about a linked set of symbols and a database that
    knows the IDs of the table. *)
Ltac linked_facts Hlinked :=
  let Hnd := fresh "Hnd" in
  let Hhooks := fresh "Hhooks" in
  destruct Hlinked as [Hnd Hhooks];
  unfold cell_addresses, hook_addresses in Hnd, Hhooks;
  repeat match goal with
         | H : Forall _ (_ :: _) |- _ => inversion H; subst; clear H
         | H : Forall _ [] |- _ => clear H
         end;
  repeat match goal with
         | H : NoDup (_ :: _) |- _ =>
             let Hx := fresh "Hx" in
             apply NoDup_cons in H as [Hx H];
             rewrite ?not_elem_of_cons in Hx
         end;
  destruct_and?.

Section GameTable.

Variable E : Env.
Variable S : RelocPatch_cpp.Symbols.

Lemma object_passes (name : string) (id res : Z) :
  res <> 0 -> default 0 (versiondb E !! id) <> 0 ->
  passes_guards E (RelocPatch_cpp.CodeSignature.object name id res).
Proof.
  intros Hres Hdb. unfold passes_guards; cbn.
  split; [exact Hdb |]. split; [exists 0; split; [reflexivity | lia] |].
  split; [| split; [intros Hc; contradiction | intros _; exact Hres]].
  split; [intros Hc; contradiction | intros [Hc _]; contradiction].
Qed.

Lemma patch_passes (name : string) (ht hook id ps rt off n : Z) :
  hook <> 0 ->
  ht <> RelocPatch_cpp.HookType.None -> ht <> RelocPatch_cpp.HookType.Nop ->
  RelocPatch_cpp.HookType.Size ht = Ok n -> n <= ps ->
  default 0 (versiondb E !! id) <> 0 ->
  passes_guards E (RelocPatch_cpp.CodeSignature.patch name ht hook id ps rt off).
Proof.
  intros Hhook Hnone Hnop Hn Hle Hdb. unfold passes_guards; cbn.
  split; [exact Hdb |]. split; [exists n; split; [exact Hn | exact Hle] |].
  split; [tauto |]. split; [tauto | intros Hc; contradiction].
Qed.

Lemma kGameSignatures_guards :
  linked S ->
  Forall (fun id => default 0 (versiondb E !! id) <> 0)
         (List.map RelocPatch_cpp.CodeSignature.id
                   (RelocPatch_cpp.kGameSignatures S)) ->
  Forall (passes_guards E) (RelocPatch_cpp.kGameSignatures S).
Proof.
  intros Hl Hids. cbn in Hids. linked_facts Hl.
  unfold RelocPatch_cpp.kGameSignatures.
  repeat (apply List.Forall_cons;
          [ first
              [ apply object_passes; [congruence | assumption]
              | eapply patch_passes;
                [ assumption | discriminate | discriminate | reflexivity
                | clear; lia | assumption ] ]
          | ]).
  apply List.Forall_nil.
Qed.

(** X6: the table of the file has no authoring error.  With its symbols
    linked and every hook write succeeding, [ApplyGamePatches] completes
    exactly when the database knows the ID of every entry. *)
Theorem game_patches_complete_iff_ids_known (w : World) :
  writes_succeed E -> linked S ->
  ((exists w', RelocPatch_cpp.ApplyGamePatches E S w = (Ok tt, w'))
   <-> Forall (fun id => default 0 (versiondb E !! id) <> 0)
              (List.map RelocPatch_cpp.CodeSignature.id
                        (RelocPatch_cpp.kGameSignatures S))).
Proof.
  intros Hw Hl. unfold RelocPatch_cpp.ApplyGamePatches.
  rewrite (table_completes_iff_guards E _ w Hw). split.
  - intros Hall. apply List.Forall_map.
    eapply List.Forall_impl; [| exact Hall].
    intros sig (Hdb & _). exact Hdb.
  - intros Hids. exact (kGameSignatures_guards Hl Hids).
Qed.

Variable game : Z -> Z.
Variable game_call : Z -> list Z -> Z.

(** X7: [GetPlayer] and [GetGameSettings] fault on their first assertion
    while their static pointer was never stored to.  After a completed
    [ApplyGamePatches] with linked symbols, each dereferences the address
    the database gave for its ID (403521 and 400782): it returns the pointer
    the game keeps there, and faults when that pointer is null.  Neither
    changes the world. *)
Theorem object_accessors_after_patches :
  (forall w : World,
      (cells w !! RelocPatch_cpp.playerObject S = None ->
       RelocPatch_cpp.GetPlayer S game w = (Fault "playerObject", w))
      /\ (cells w !! RelocPatch_cpp.gameSettings S = None ->
          RelocPatch_cpp.GetGameSettings S game w = (Fault "gameSettings", w)))
  /\ (forall w w' : World,
         linked S ->
         RelocPatch_cpp.ApplyGamePatches E S w = (Ok tt, w') ->
         RelocPatch_cpp.GetPlayer S game w'
         = ((let a := RelocPatch_cpp.real_address_of
                        E (RelocPatch_cpp.kThePlayer_ObjectSig S) in
             if a =? 0 then Fault "playerObject"
             else if game a =? 0 then Fault "*playerObject"
                  else Ok (game a)), w')
         /\ RelocPatch_cpp.GetGameSettings S game w'
            = ((let a := RelocPatch_cpp.real_address_of
                           E (RelocPatch_cpp.kGameSettingCollection_ObjectSig S) in
                if a =? 0 then Fault "gameSettings"
                else if game a =? 0 then Fault "*gameSettings"
                     else Ok (game a)), w')).
Proof.
  split.
  - intros w. split; intros Hnone;
      unfold RelocPatch_cpp.GetPlayer, RelocPatch_cpp.GetGameSettings,
        RelocPatch_cpp.load_static, bind, ASSERT;
      rewrite Hnone; reflexivity.
  - intros w w' Hl H. linked_facts Hl. split.
    + destruct (published_value_survives
                  E [] (tl (RelocPatch_cpp.kGameSignatures S))
                  (RelocPatch_cpp.kThePlayer_ObjectSig S)
                  (RelocPatch_cpp.playerObject S) w w' H) as (Hc & _).
      { cbn. repeat (apply List.Forall_cons; [cbn; split; congruence |]).
        apply List.Forall_nil. }
      specialize (Hc eq_refl eq_refl).
      unfold RelocPatch_cpp.GetPlayer, RelocPatch_cpp.load_static, bind,
        ASSERT, ret.
      cbn in Hc. rewrite Hc. cbn.
      destruct (_ =? 0); [reflexivity |]. cbn.
      destruct (game _ =? 0); reflexivity.
    + destruct (published_value_survives
                  E [RelocPatch_cpp.kThePlayer_ObjectSig S]
                  (tl (tl (RelocPatch_cpp.kGameSignatures S)))
                  (RelocPatch_cpp.kGameSettingCollection_ObjectSig S)
                  (RelocPatch_cpp.gameSettings S) w w' H) as (Hc & _).
      { cbn. repeat (apply List.Forall_cons; [cbn; split; congruence |]).
        apply List.Forall_nil. }
      specialize (Hc eq_refl eq_refl).
      unfold RelocPatch_cpp.GetGameSettings, RelocPatch_cpp.load_static, bind,
        ASSERT, ret.
      cbn in Hc. rewrite Hc. cbn.
      destruct (_ =? 0); [reflexivity |]. cbn.
      destruct (game _ =? 0); reflexivity.
Qed.

(** X8: [GetLevel] faults while [GetLevel_Entry] was never stored to.
    After a completed [ApplyGamePatches] with linked symbols it calls the
    game function at the address the database gave for ID 37334 with the
    actor as its argument and returns the result as a [UInt16]; it faults
    when that address is null. *)
Theorem GetLevel_after_patches :
  (forall (w : World) (actor : Z),
      cells w !! RelocPatch_cpp.GetLevel_Entry S = None ->
      RelocPatch_cpp.GetLevel S game_call actor w = (Fault "GetLevel_Entry", w))
  /\ (forall (w w' : World) (actor : Z),
         linked S ->
         RelocPatch_cpp.ApplyGamePatches E S w = (Ok tt, w') ->
         RelocPatch_cpp.GetLevel S game_call actor w'
         = ((let f := RelocPatch_cpp.real_address_of
                        E (RelocPatch_cpp.kGetLevel_FunctionSig S) in
             if f =? 0 then Fault "GetLevel_Entry"
             else Ok (game_call f [actor] mod 2 ^ 16)), w')
         /\ (forall v, RelocPatch_cpp.GetLevel S game_call actor w' = (Ok v, w') ->
                       0 <= v < 2 ^ 16)).
Proof.
  split.
  - intros w actor Hnone.
    unfold RelocPatch_cpp.GetLevel, RelocPatch_cpp.load_static, bind, ASSERT.
    rewrite Hnone. reflexivity.
  - intros w w' actor Hl H. linked_facts Hl.
    destruct (published_value_survives
                E [RelocPatch_cpp.kThePlayer_ObjectSig S;
                   RelocPatch_cpp.kGameSettingCollection_ObjectSig S]
                (tl (tl (tl (RelocPatch_cpp.kGameSignatures S))))
                (RelocPatch_cpp.kGetLevel_FunctionSig S)
                (RelocPatch_cpp.GetLevel_Entry S) w w' H) as (Hc & _).
    { cbn. repeat (apply List.Forall_cons; [cbn; split; congruence |]).
      apply List.Forall_nil. }
    specialize (Hc eq_refl eq_refl).
    unfold RelocPatch_cpp.GetLevel, RelocPatch_cpp.load_static, bind,
      ASSERT, ret.
    cbn in Hc. rewrite Hc. cbn.
    destruct (_ =? 0); cbn.
    + split; [reflexivity | intros v Hv; discriminate Hv].
    + split; [reflexivity |]. intros v Hv. inversion Hv; subst.
      apply Z.mod_pos_bound. clear. lia.
Qed.

(** X9: the signature [kAllowAllAttrImproveCarryWeight_PatchSig] is
    defined in the file but is not an entry of [kGameSignatures]:
    [ApplyGamePatches] never processes it, and no "Signature" line of its
    log carries that name. *)
Theorem carry_weight_patch_not_applied
        (w : World) (r : Res unit) (w' : World) (new : list Event)
        (line : string * Z * Z * Z) :
  RelocPatch_cpp.ApplyGamePatches E S w = (r, w') ->
  added w w' new ->
  In line (signature_lines new) ->
  line.1.1.1
  <> RelocPatch_cpp.CodeSignature.name
       RelocPatch_cpp.kAllowAllAttrImproveCarryWeight_PatchSig.
Proof.
  intros H Hadd Hin.
  destruct (signature_log_follows_table E _ _ _ _ _ H Hadd) as ([rest Hp] & _).
  assert (Hall : In line (List.map (signature_line E)
                                   (RelocPatch_cpp.kGameSignatures S)))
    by (rewrite Hp; apply in_or_app; left; exact Hin).
  cbn in Hall.
  repeat (destruct Hall as [<- | Hall]; [cbn; discriminate |]).
  contradiction.
Qed.

End GameTable.

(** * More on RelocPatch<T> *)

(** One goal per path through [Apply] on a resolved patch. *)
Ltac resolved_apply_paths E p H Hra :=
  let Hb := fresh "Hb" in
  unfold RelocPatch_h.Apply in H; unfold bind at 1 in H;
  rewrite (Resolve_cached E) in H by exact Hra;
  destruct p as [[name ht s ps ho io isz] hd ra]; cbn in Hra;
  assert (Hb : (ra =? 0) = false) by (apply Z.eqb_neq; exact Hra);
  destruct (h_tag_cases ht)
    as [->|[->|[->|[->|[->|[->|[->|[->|Hout]]]]]]]];
  [ .. | cbn in H; rewrite (h_Size_outside _ Hout) in H ];
  unfold RelocPatch_h.install_hook, RelocPatch_h.GetRetAddr,
    RelocPatch_h.Resolve in H;
  cbn in H; rewrite ?Hb in H; exec_in H;
  rewrite <- ?app_assoc in H; cbn in H;
  unfold RelocPatch_h.kDirectCallPatchSize,
    RelocPatch_h.kDirectJumpPatchSize in *;
  inversion H; subst; clear H.

Section MemberFacts.

Variable E : Env.

Lemma resolved_Apply_effects (p p' : RelocPatch_h.RelocPatch) (target : Z)
      (w w' : World) :
  RelocPatch_h.real_address p <> 0 ->
  RelocPatch_h.Apply E p target w = (Ok p', w') ->
  exists (n : Z) (new : list Event),
    added w w' new
    /\ RelocPatch_h.HookType.Size
         (RelocPatch_h.PatchSignature.hook_type (RelocPatch_h.sig p)) = Ok n
    /\ ((RelocPatch_h.PatchSignature.hook_type (RelocPatch_h.sig p)
         = RelocPatch_h.HookType.Nop
         /\ n = 0 /\ List.filter is_hook_write new = [])
        \/ (RelocPatch_h.PatchSignature.hook_type (RelocPatch_h.sig p)
            <> RelocPatch_h.HookType.Nop
            /\ exists k : HookWriter,
                HookWriter_bytes k = n
                /\ List.filter is_hook_write new
                   = [EvHookWrite k (RelocPatch_h.real_address p) target true])).
Proof.
  intros Hra H. resolved_apply_paths E p H Hra; cbn.
  all: eexists; eexists; (split; [unfold added; cbn; reflexivity |]);
    (split; [reflexivity |]).
  all: first
         [ left; split; [reflexivity |]; split; reflexivity
         | right; split; [discriminate |];
           eexists; (split; [| reflexivity]); reflexivity ].
Qed.

(** X11: a completed [Apply] called the hook writer once unless the type
    is [Nop]: at the resolved address, with the target it was given, and
    the writer it called writes as many bytes as [HookType::Size] reports,
    so the NOP fill starts right behind the hook.  For [Nop] it called no
    writer. *)
Theorem Apply_hook_write_matches_size
        (p p' : RelocPatch_h.RelocPatch) (target : Z)
        (w w' : World) (new : list Event) :
  RelocPatch_h.Apply E p target w = (Ok p', w') ->
  added w w' new ->
  exists n : Z,
    RelocPatch_h.HookType.Size
      (RelocPatch_h.PatchSignature.hook_type (RelocPatch_h.sig p)) = Ok n
    /\ ((RelocPatch_h.PatchSignature.hook_type (RelocPatch_h.sig p)
         = RelocPatch_h.HookType.Nop
         /\ n = 0 /\ List.filter is_hook_write new = [])
        \/ (RelocPatch_h.PatchSignature.hook_type (RelocPatch_h.sig p)
            <> RelocPatch_h.HookType.Nop
            /\ exists k : HookWriter,
                HookWriter_bytes k = n
                /\ List.filter is_hook_write new
                   = [EvHookWrite k (RelocPatch_h.real_address p') target true])).
Proof.
  intros H Hadd.
  destruct (RelocPatch_h.Resolve E p w) as [[pr|msg] wr] eqn:HR.
  - rewrite (Apply_via_Resolve E _ _ _ _ _ HR) in H.
    destruct (Resolve_inv E _ _ _ _ HR) as (_ & _ & _ & Hok).
    destruct (Hok pr eq_refl) as (Hnz & Hsig & _).
    destruct (Resolve_scan_trace E _ _ _ _ HR) as (new1 & Ha1 & _ & Hh1).
    destruct (Apply_resolved_frame E _ _ _ _ _ Hnz H) as (_ & _ & Hfr).
    destruct (Hfr p' eq_refl) as (_ & _ & Hra & _).
    destruct (resolved_Apply_effects _ _ _ _ _ Hnz H)
      as (n & new2 & Ha2 & Hn & Hcases).
    assert (Hnew : new = new1 ++ new2).
    { unfold added in *. rewrite Ha2, Ha1, <- app_assoc in Hadd.
      apply app_inv_head in Hadd. symmetry. exact Hadd. }
    subst new. rewrite List.filter_app, Hh1. cbn.
    rewrite Hsig in *. rewrite Hra. exists n. split; [exact Hn | exact Hcases].
  - unfold RelocPatch_h.Apply in H. unfold bind at 1 in H.
    rewrite HR in H. discriminate H.
Qed.

(** X12: a patch of type [None] is for looking an address up only.  Where
    [GetUIntPtr] returns the address, [GetRetAddr] and [Apply] on the same
    object in the same world resolve and then halt, [HookType::Size] having
    no size for [None]; code bytes and data cells are as before. *)
Theorem None_patch_is_lookup_only
        (p p1 : RelocPatch_h.RelocPatch) (a target : Z) (w w1 : World) :
  RelocPatch_h.PatchSignature.hook_type (RelocPatch_h.sig p)
  = RelocPatch_h.HookType.None ->
  RelocPatch_h.GetUIntPtr E p w = (Ok (a, p1), w1) ->
  RelocPatch_h.GetRetAddr E p w
  = (Fault "Cannot get the size of an invalid hook type.", w1)
  /\ RelocPatch_h.Apply E p target w
     = (Fault "Cannot get the size of an invalid hook type.", w1)
  /\ code w1 = code w /\ cells w1 = cells w.
Proof.
  intros Hnone H. unfold RelocPatch_h.GetUIntPtr, bind, ret in H.
  destruct (RelocPatch_h.Resolve E p w) as [[pr|msg] wr] eqn:HR;
    [| discriminate H].
  inversion H; subst; clear H.
  destruct (Resolve_inv E _ _ _ _ HR) as (Hc & Hce & _ & Hok).
  destruct (Hok p1 eq_refl) as (_ & Hsig & _).
  unfold RelocPatch_h.GetRetAddr, RelocPatch_h.Apply, bind, lift.
  rewrite HR, Hsig, Hnone. cbn.
  repeat split; assumption.
Qed.

(** X13: when the scanner finds nothing for a patch that is not resolved
    yet, every resolving member faults on [ASSERT(real_address)] after that
    one consultation, and nothing is written. *)
Theorem scanner_miss_faults (p : RelocPatch_h.RelocPatch) (target : Z)
        (w : World) :
  RelocPatch_h.real_address p = 0 ->
  wrap64 (rva_scan E (RelocPatch_h.PatchSignature.name (RelocPatch_h.sig p))
                   (RelocPatch_h.PatchSignature.sig (RelocPatch_h.sig p))
                   (RelocPatch_h.PatchSignature.hook_offset (RelocPatch_h.sig p))
                   (RelocPatch_h.PatchSignature.indirect_offset (RelocPatch_h.sig p))
                   (RelocPatch_h.PatchSignature.instr_size (RelocPatch_h.sig p))
                   w) = 0 ->
  let w1 := emit (EvRVAScan
                    (RelocPatch_h.PatchSignature.name (RelocPatch_h.sig p))
                    (RelocPatch_h.PatchSignature.sig (RelocPatch_h.sig p))
                    (RelocPatch_h.PatchSignature.hook_offset (RelocPatch_h.sig p))
                    (RelocPatch_h.PatchSignature.indirect_offset (RelocPatch_h.sig p))
                    (RelocPatch_h.PatchSignature.instr_size (RelocPatch_h.sig p)))
                 w in
  RelocPatch_h.Resolve E p w = (Fault "real_address", w1)
  /\ RelocPatch_h.operator_star E p w = (Fault "real_address", w1)
  /\ RelocPatch_h.operator_arrow E p w = (Fault "real_address", w1)
  /\ RelocPatch_h.GetUIntPtr E p w = (Fault "real_address", w1)
  /\ RelocPatch_h.GetRetAddr E p w = (Fault "real_address", w1)
  /\ RelocPatch_h.Apply E p target w = (Fault "real_address", w1)
  /\ code w1 = code w /\ cells w1 = cells w.
Proof.
  intros Hz Hmiss w1.
  assert (HR : RelocPatch_h.Resolve E p w = (Fault "real_address", w1)).
  { unfold RelocPatch_h.Resolve, RelocPatch_h.RVAScan, bind, ASSERT.
    rewrite Hz. cbn. rewrite Hmiss. reflexivity. }
  unfold RelocPatch_h.operator_star, RelocPatch_h.operator_arrow,
    RelocPatch_h.GetUIntPtr, RelocPatch_h.GetRetAddr, RelocPatch_h.Apply, bind.
  rewrite HR. repeat split; reflexivity.
Qed.

Lemma h_Size_range (v n : Z) :
  RelocPatch_h.HookType.Size v = Ok n -> 0 <= n <= 6.
Proof.
  intros H.
  destruct (h_tag_cases v) as [->|[->|[->|[->|[->|[->|[->|[->|Hout]]]]]]]];
    try (rewrite (h_Size_outside _ Hout) in H; discriminate H);
    cbn in H; inversion H;
    unfold RelocPatch_h.kDirectCallPatchSize, RelocPatch_h.kDirectJumpPatchSize;
    lia.
Qed.

(** X14: the return address is the resolved address plus the size of the
    hook: where [GetUIntPtr] returns [a], [GetRetAddr] on the same object in
    the same world returns [a + Size(hook_type)] in [uintptr_t] arithmetic
    (the plain sum when it does not overflow) and leaves the same object
    and world. *)
Theorem GetRetAddr_is_GetUIntPtr_plus_Size
        (p p1 : RelocPatch_h.RelocPatch) (a n : Z) (w w1 : World) :
  RelocPatch_h.GetUIntPtr E p w = (Ok (a, p1), w1) ->
  RelocPatch_h.HookType.Size
    (RelocPatch_h.PatchSignature.hook_type (RelocPatch_h.sig p)) = Ok n ->
  RelocPatch_h.GetRetAddr E p w = (Ok (wrap64 (a + n), p1), w1)
  /\ (0 <= a -> a + n < 2 ^ 64 ->
      RelocPatch_h.GetRetAddr E p w = (Ok (a + n, p1), w1)).
Proof.
  intros H Hn. unfold RelocPatch_h.GetUIntPtr, bind, ret in H.
  destruct (RelocPatch_h.Resolve E p w) as [[pr|msg] wr] eqn:HR;
    [| discriminate H].
  inversion H; subst; clear H.
  destruct (Resolve_inv E _ _ _ _ HR) as (_ & _ & _ & Hok).
  destruct (Hok p1 eq_refl) as (_ & Hsig & _).
  assert (Hget : RelocPatch_h.GetRetAddr E p w
                 = (Ok (wrap64 (RelocPatch_h.real_address p1 + n), p1), w1)).
  { unfold RelocPatch_h.GetRetAddr, bind, lift, ret.
    rewrite HR, Hsig, Hn. reflexivity. }
  split; [exact Hget |].
  intros Ha Hlt. rewrite Hget. rewrite wrap64_small; [reflexivity |].
  pose proof (h_Size_range _ _ Hn). lia.
Qed.

Lemma method_call_effects (s1 s2 : RelocPatch_h.RelocPatch * World) :
  method_call E s1 s2 ->
  cells s2.2 = cells s1.2
  /\ RelocPatch_h.sig s2.1 = RelocPatch_h.sig s1.1
  /\ (RelocPatch_h.hook_done s1.1 = true -> RelocPatch_h.hook_done s2.1 = true)
  /\ (RelocPatch_h.hook_done s2.1 = RelocPatch_h.hook_done s1.1 ->
      code s2.2 = code s1.2).
Proof.
  intros Hc.
  destruct Hc as [p w p' w' H | p w a p' w' H | p w a p' w' H
                 | p w a p' w' H | p w a p' w' H | p w a p' w' H
                 | p t w p' w' H]; cbn.
  - destruct (Resolve_inv E _ _ _ _ H) as (Hc & Hce & _ & Hok).
    destruct (Hok p' eq_refl) as (_ & Hsig & Hd). rewrite Hd. tauto.
  - unfold RelocPatch_h.operator_star, bind, ret in H.
    destruct (RelocPatch_h.Resolve E p w) as [[pr|msg] wr] eqn:HR;
      [| discriminate H].
    inversion H; subst; clear H.
    destruct (Resolve_inv E _ _ _ _ HR) as (Hc & Hce & _ & Hok).
    destruct (Hok p' eq_refl) as (_ & Hsig & Hd). rewrite Hd. tauto.
  - unfold RelocPatch_h.operator_arrow, bind, ret in H.
    destruct (RelocPatch_h.Resolve E p w) as [[pr|msg] wr] eqn:HR;
      [| discriminate H].
    inversion H; subst; clear H.
    destruct (Resolve_inv E _ _ _ _ HR) as (Hc & Hce & _ & Hok).
    destruct (Hok p' eq_refl) as (_ & Hsig & Hd). rewrite Hd. tauto.
  - unfold RelocPatch_h.operator_T, ret in H. inversion H; subst. tauto.
  - unfold RelocPatch_h.GetUIntPtr, bind, ret in H.
    destruct (RelocPatch_h.Resolve E p w) as [[pr|msg] wr] eqn:HR;
      [| discriminate H].
    inversion H; subst; clear H.
    destruct (Resolve_inv E _ _ _ _ HR) as (Hc & Hce & _ & Hok).
    destruct (Hok p' eq_refl) as (_ & Hsig & Hd). rewrite Hd. tauto.
  - unfold RelocPatch_h.GetRetAddr, bind, ret, lift in H.
    destruct (RelocPatch_h.Resolve E p w) as [[pr|msg] wr] eqn:HR;
      [| discriminate H].
    destruct (RelocPatch_h.HookType.Size _); [| discriminate H].
    inversion H; subst; clear H.
    destruct (Resolve_inv E _ _ _ _ HR) as (Hc & Hce & _ & Hok).
    destruct (Hok p' eq_refl) as (_ & Hsig & Hd). rewrite Hd. tauto.
  - destruct (RelocPatch_h.Resolve E p w) as [[pr|msg] wr] eqn:HR.
    + rewrite (Apply_via_Resolve E _ _ _ _ _ HR) in H.
      destruct (Resolve_inv E _ _ _ _ HR) as (_ & Hce & _ & Hok).
      destruct (Hok pr eq_refl) as (Hnz & Hsig & Hd).
      destruct (Apply_resolved_frame E _ _ _ _ _ Hnz H) as (_ & Hce' & Hfr).
      destruct (Hfr p' eq_refl) as (Hf & Ht & _ & Hsig' & _).
      rewrite Hd in Hf. rewrite Hf, Ht, Hce', Hce, Hsig', Hsig.
      repeat split; intros Hx; discriminate Hx.
    + unfold RelocPatch_h.Apply in H. unfold bind at 1 in H.
      rewrite HR in H. discriminate H.
Qed.

(** X15: the members of [RelocPatch<T>] never store to a data cell and
    never change the signature they were built with, and the installed flag
    is never reset.  Over any sequence of completed member calls the code
    bytes change only if the flag changed, that is, only through the one
    [Apply] that completed. *)
Theorem members_change_code_once (s1 s2 : RelocPatch_h.RelocPatch * World) :
  method_calls E s1 s2 ->
  cells s2.2 = cells s1.2
  /\ RelocPatch_h.sig s2.1 = RelocPatch_h.sig s1.1
  /\ (RelocPatch_h.hook_done s1.1 = true -> RelocPatch_h.hook_done s2.1 = true)
  /\ (RelocPatch_h.hook_done s2.1 = RelocPatch_h.hook_done s1.1 ->
      code s2.2 = code s1.2).
Proof.
  induction 1 as [s | s1 s2 s3 Hc Hcs IH].
  - tauto.
  - destruct (method_call_effects _ _ Hc) as (Hce & Hsig & Hmono & Hcode).
    destruct IH as (Hce' & Hsig' & Hmono' & Hcode').
    split; [rewrite Hce', Hce; reflexivity |].
    split; [rewrite Hsig', Hsig; reflexivity |].
    split; [tauto |].
    intros Heq.
    destruct (RelocPatch_h.hook_done s1.1) eqn:H1.
    + specialize (Hmono eq_refl). rewrite Hcode', Hcode; [reflexivity | |];
        congruence.
    + destruct (RelocPatch_h.hook_done s2.1) eqn:H2.
      * specialize (Hmono' eq_refl). congruence.
      * rewrite Hcode', Hcode; [reflexivity | |]; congruence.
Qed.

End MemberFacts.

(** * The constructor of PatchSignature *)

(** X16: the offsets of a [PatchSignature] are passed as [size_t] and kept
    as [ptrdiff_t]: the stored offset is the signed 64-bit value with the
    same bits, so an offset below 2^63 is kept as it is and one from 2^63 on
    is kept as the negative number it stands for; the other members are
    kept as given. *)
Theorem PatchSignature_make_offsets
        (name : string) (hook_type : Z) (sg : string)
        (patch_size hook_offset indirect_offset instr_size : Z) :
  let s := RelocPatch_h.PatchSignature.make
             name hook_type sg patch_size hook_offset indirect_offset instr_size in
  - 2 ^ 63 <= RelocPatch_h.PatchSignature.hook_offset s < 2 ^ 63
  /\ wrap64 (RelocPatch_h.PatchSignature.hook_offset s) = wrap64 hook_offset
  /\ (0 <= hook_offset < 2 ^ 63 ->
      RelocPatch_h.PatchSignature.hook_offset s = hook_offset)
  /\ (2 ^ 63 <= hook_offset < 2 ^ 64 ->
      RelocPatch_h.PatchSignature.hook_offset s = hook_offset - 2 ^ 64)
  /\ - 2 ^ 63 <= RelocPatch_h.PatchSignature.indirect_offset s < 2 ^ 63
  /\ wrap64 (RelocPatch_h.PatchSignature.indirect_offset s)
     = wrap64 indirect_offset
  /\ RelocPatch_h.PatchSignature.hook_type s = hook_type
  /\ RelocPatch_h.PatchSignature.patch_size s = patch_size
  /\ RelocPatch_h.PatchSignature.instr_size s = instr_size.
Proof.
  assert (Hconv : forall z,
             - 2 ^ 63 <= to_ptrdiff z < 2 ^ 63
             /\ wrap64 (to_ptrdiff z) = wrap64 z
             /\ (0 <= z < 2 ^ 63 -> to_ptrdiff z = z)
             /\ (2 ^ 63 <= z < 2 ^ 64 -> to_ptrdiff z = z - 2 ^ 64)).
  { intros z. unfold to_ptrdiff. cbv zeta.
    pose proof (wrap64_range z) as Hr.
    destruct (Z.ltb_spec (wrap64 z) (2 ^ 63)) as [Hlt | Hge].
    - split; [lia |]. split; [unfold wrap64; apply Z.mod_mod; lia |].
      split; intros Hz.
      + apply wrap64_small. lia.
      + rewrite wrap64_small in Hlt by lia. lia.
    - split; [lia |]. split.
      + unfold wrap64.
        replace (z mod 2 ^ 64 - 2 ^ 64) with (z mod 2 ^ 64 + (-1) * 2 ^ 64)
          by lia.
        rewrite Z.mod_add by lia. apply Z.mod_mod. lia.
      + split; intros Hz.
        * rewrite wrap64_small in Hge by lia. lia.
        * rewrite wrap64_small by lia. reflexivity. }
  intros s. subst s. cbn.
  destruct (Hconv hook_offset) as (H1 & H2 & H3 & H4).
  destruct (Hconv indirect_offset) as (H5 & H6 & _).
  repeat split; try assumption; try (apply H1); try (apply H5).
Qed.

(** * Examples for the further properties *)

Lemma fixture_writes_succeed : writes_succeed Fixture.env_full.
Proof. intros k a t w. reflexivity. Defined.

Lemma fixture_linked : linked Fixture.syms.
Proof.
  split.
  - apply (bool_decide_unpack _). vm_compute. reflexivity.
  - apply (bool_decide_unpack _). vm_compute. reflexivity.
Defined.

Lemma fixture_ids_known :
  Forall (fun id => default 0 (versiondb Fixture.env_full !! id) <> 0)
         (List.map RelocPatch_cpp.CodeSignature.id
                   (RelocPatch_cpp.kGameSignatures Fixture.syms)).
Proof. apply (bool_decide_unpack _). vm_compute. reflexivity. Defined.

Lemma table_completes_iff_guards_witness :
  writes_succeed Fixture.env_full
  /\ Forall (passes_guards Fixture.env_full)
            (RelocPatch_cpp.kGameSignatures Fixture.syms).
Proof.
  split; [exact fixture_writes_succeed |].
  apply (proj1 (table_completes_iff_guards
                  Fixture.env_full
                  (RelocPatch_cpp.kGameSignatures Fixture.syms)
                  Fixture.w0 fixture_writes_succeed)).
  exists Fixture.full_run.2. vm_compute. reflexivity.
Defined.

Lemma table_cells_frame_witness :
  Forall (fun s => 0x9000 <> RelocPatch_cpp.CodeSignature.return_trampoline s
                   /\ 0x9000 <> RelocPatch_cpp.CodeSignature.result s)
         [Fixture.hide_sig]
  /\ Fixture.hide_table_run = (Ok tt, Fixture.hide_table_run.2)
  /\ cells Fixture.hide_table_run.2 !! 0x9000 = None.
Proof.
  assert (Hall : Forall
                   (fun s => 0x9000 <> RelocPatch_cpp.CodeSignature.return_trampoline s
                             /\ 0x9000 <> RelocPatch_cpp.CodeSignature.result s)
                   [Fixture.hide_sig])
    by (apply (bool_decide_unpack _); vm_compute; reflexivity).
  assert (Hrun : RelocPatch_cpp.ApplyGamePatches_table
                   Fixture.env [Fixture.hide_sig] Fixture.w0
                 = (Ok tt, Fixture.hide_table_run.2)) by (vm_compute; reflexivity).
  split; [exact Hall |]. split; [exact Hrun |].
  rewrite (table_cells_frame Fixture.env _ _ _ _ _ Hall Hrun). reflexivity.
Defined.

Lemma published_value_survives_witness :
  Fixture.full_run = (Ok tt, Fixture.full_run.2)
  /\ cells Fixture.full_run.2 !! 0x8020 = Some (0x140900153 + 6).
Proof.
  assert (Hrun : RelocPatch_cpp.ApplyGamePatches_table Fixture.env_full
                   (firstn 7 (RelocPatch_cpp.kGameSignatures Fixture.syms)
                    ++ Fixture.hide_sig
                    :: skipn 8 (RelocPatch_cpp.kGameSignatures Fixture.syms))
                   Fixture.w0
                 = (Ok tt, Fixture.full_run.2)) by (vm_compute; reflexivity).
  assert (Hpost : Forall
                    (fun s => 0x8020 <> RelocPatch_cpp.CodeSignature.return_trampoline s
                              /\ 0x8020 <> RelocPatch_cpp.CodeSignature.result s)
                    (skipn 8 (RelocPatch_cpp.kGameSignatures Fixture.syms)))
    by (apply (bool_decide_unpack _); vm_compute; reflexivity).
  split; [exact Hrun |].
  destruct (published_value_survives Fixture.env_full _ _ _ 0x8020 _ _ Hrun Hpost)
    as (_ & Hrt).
  destruct Hrt as (n & Hn & Hcell); [vm_compute; discriminate | reflexivity |].
  vm_compute in Hn. inversion Hn; subst n. rewrite Hcell.
  vm_compute. reflexivity.
Defined.

Lemma signature_log_follows_table_witness :
  Fixture.partial_run = (Fault "addr", Fixture.partial_run.2)
  /\ added Fixture.w0 Fixture.partial_run.2 (trace Fixture.partial_run.2)
  /\ signature_lines (trace Fixture.partial_run.2)
     = [("g_thePlayer", 403521, 0, 0x2fc19c8)]
  /\ signature_lines (trace Fixture.partial_run.2)
       `prefix_of` List.map (signature_line Fixture.env)
                            (RelocPatch_cpp.kGameSignatures Fixture.syms).
Proof.
  assert (Hrun : RelocPatch_cpp.ApplyGamePatches_table Fixture.env
                   (RelocPatch_cpp.kGameSignatures Fixture.syms) Fixture.w0
                 = (Fault "addr", Fixture.partial_run.2))
    by (vm_compute; reflexivity).
  assert (Hadd : added Fixture.w0 Fixture.partial_run.2
                       (trace Fixture.partial_run.2)) by reflexivity.
  split; [exact Hrun |]. split; [exact Hadd |].
  split; [vm_compute; reflexivity |].
  exact (proj1 (signature_log_follows_table Fixture.env _ _ _ _ _ Hrun Hadd)).
Defined.

Lemma finished_logged_iff_completed_witness :
  Fixture.full_run = (Ok tt, Fixture.full_run.2)
  /\ added Fixture.w0 Fixture.full_run.2 (trace Fixture.full_run.2)
  /\ last (trace Fixture.full_run.2)
     = Some (EvMessage "Finished applying game patches!" []).
Proof.
  assert (Hrun : RelocPatch_cpp.ApplyGamePatches_table Fixture.env_full
                   (RelocPatch_cpp.kGameSignatures Fixture.syms) Fixture.w0
                 = (Ok tt, Fixture.full_run.2)) by (vm_compute; reflexivity).
  assert (Hadd : added Fixture.w0 Fixture.full_run.2 (trace Fixture.full_run.2))
    by reflexivity.
  split; [exact Hrun |]. split; [exact Hadd |].
  destruct (finished_logged_iff_completed Fixture.env_full _ _ _ _ _ Hrun Hadd)
    as (_ & Hlast & _).
  exact (Hlast eq_refl).
Defined.

Lemma game_patches_complete_iff_ids_known_witness :
  writes_succeed Fixture.env_full /\ linked Fixture.syms
  /\ exists w', RelocPatch_cpp.ApplyGamePatches Fixture.env_full Fixture.syms
                                                Fixture.w0 = (Ok tt, w').
Proof.
  split; [exact fixture_writes_succeed |]. split; [exact fixture_linked |].
  apply (proj2 (game_patches_complete_iff_ids_known
                  Fixture.env_full Fixture.syms Fixture.w0
                  fixture_writes_succeed fixture_linked)).
  exact fixture_ids_known.
Defined.

Lemma object_accessors_after_patches_witness :
  (cells Fixture.w0 !! RelocPatch_cpp.playerObject Fixture.syms = None
   /\ RelocPatch_cpp.GetPlayer Fixture.syms Fixture.game Fixture.w0
      = (Fault "playerObject", Fixture.w0))
  /\ (linked Fixture.syms
      /\ Fixture.full_run = (Ok tt, Fixture.full_run.2)
      /\ RelocPatch_cpp.GetPlayer Fixture.syms Fixture.game Fixture.full_run.2
         = (Ok 0x1f0000000, Fixture.full_run.2)
      /\ RelocPatch_cpp.GetGameSettings Fixture.syms Fixture.game
                                        Fixture.full_run.2
         = (Ok 0x1f0001000, Fixture.full_run.2)).
Proof.
  split.
  - assert (Hnone : cells Fixture.w0 !! RelocPatch_cpp.playerObject Fixture.syms
                    = None) by reflexivity.
    split; [exact Hnone |].
    exact (proj1 (proj1 (object_accessors_after_patches
                           Fixture.env_full Fixture.syms Fixture.game)
                        Fixture.w0) Hnone).
  - assert (Hrun : RelocPatch_cpp.ApplyGamePatches Fixture.env_full Fixture.syms
                                                   Fixture.w0
                   = (Ok tt, Fixture.full_run.2)) by (vm_compute; reflexivity).
    split; [exact fixture_linked |]. split; [exact Hrun |].
    destruct (proj2 (object_accessors_after_patches
                       Fixture.env_full Fixture.syms Fixture.game)
                    Fixture.w0 Fixture.full_run.2 fixture_linked Hrun)
      as (Hp & Hs).
    split; [rewrite Hp | rewrite Hs]; vm_compute; reflexivity.
Defined.

Lemma GetLevel_after_patches_witness :
  linked Fixture.syms
  /\ Fixture.full_run = (Ok tt, Fixture.full_run.2)
  /\ RelocPatch_cpp.GetLevel Fixture.syms Fixture.game_call 0x1f0000000
                             Fixture.full_run.2
     = (Ok 42, Fixture.full_run.2).
Proof.
  assert (Hrun : RelocPatch_cpp.ApplyGamePatches Fixture.env_full Fixture.syms
                                                 Fixture.w0
                 = (Ok tt, Fixture.full_run.2)) by (vm_compute; reflexivity).
  split; [exact fixture_linked |]. split; [exact Hrun |].
  destruct (proj2 (GetLevel_after_patches
                     Fixture.env_full Fixture.syms Fixture.game_call)
                  Fixture.w0 Fixture.full_run.2 0x1f0000000 fixture_linked Hrun)
    as (Hg & _).
  rewrite Hg. vm_compute. reflexivity.
Defined.

Lemma carry_weight_patch_not_applied_witness :
  Fixture.full_run = (Fixture.full_run.1, Fixture.full_run.2)
  /\ In ("ImproveAttributeWhenLevelUp", 51917, 0, 0x8c4700)
        (signature_lines (trace Fixture.full_run.2))
  /\ "ImproveAttributeWhenLevelUp" <> "AllowAllAttrImproveCarryWeight".
Proof.
  assert (Hrun : RelocPatch_cpp.ApplyGamePatches Fixture.env_full Fixture.syms
                                                 Fixture.w0
                 = (Fixture.full_run.1, Fixture.full_run.2))
    by (vm_compute; reflexivity).
  assert (Hadd : added Fixture.w0 Fixture.full_run.2 (trace Fixture.full_run.2))
    by reflexivity.
  assert (Hin : In ("ImproveAttributeWhenLevelUp", 51917, 0, 0x8c4700)
                   (signature_lines (trace Fixture.full_run.2)))
    by (vm_compute; do 11 right; left; reflexivity).
  split; [exact Hrun |]. split; [exact Hin |].
  exact (carry_weight_patch_not_applied
           Fixture.env_full Fixture.syms _ _ _ _ _ Hrun Hadd Hin).
Defined.

Lemma hook_write_matches_size_witness :
  Fixture.hide_run = (Ok tt, Fixture.hide_run.2)
  /\ added Fixture.w0 Fixture.hide_run.2 (trace Fixture.hide_run.2)
  /\ exists k,
      HookWriter_bytes k = 6
      /\ List.filter is_hook_write (trace Fixture.hide_run.2)
         = [EvHookWrite k 0x140900153 0x7020 true].
Proof.
  assert (Hrun : RelocPatch_cpp.ApplyGamePatches_body
                   Fixture.env Fixture.hide_sig Fixture.w0
                 = (Ok tt, Fixture.hide_run.2)) by (vm_compute; reflexivity).
  assert (Hadd : added Fixture.w0 Fixture.hide_run.2 (trace Fixture.hide_run.2))
    by reflexivity.
  split; [exact Hrun |]. split; [exact Hadd |].
  destruct (hook_write_matches_size Fixture.env _ _ _ _ Hrun Hadd)
    as (n & Hn & [(Hty & _) | (_ & _ & Hk)]).
  - destruct Hty as [Hty | Hty]; vm_compute in Hty; discriminate Hty.
  - vm_compute in Hn. inversion Hn; subst n. exact Hk.
Defined.

Lemma Apply_hook_write_matches_size_witness :
  Fixture.branch_apply
  = (Ok (Fixture.object_of (RelocPatch_h.new Fixture.branch_patch)
                           Fixture.branch_apply.1),
     Fixture.branch_apply.2)
  /\ added Fixture.w0 Fixture.branch_apply.2 (trace Fixture.branch_apply.2)
  /\ exists k,
      HookWriter_bytes k = 6
      /\ List.filter is_hook_write (trace Fixture.branch_apply.2)
         = [EvHookWrite k 0x140001076 0x7010 true].
Proof.
  assert (Hrun : RelocPatch_h.Apply Fixture.env
                   (RelocPatch_h.new Fixture.branch_patch) 0x7010 Fixture.w0
                 = (Ok (Fixture.object_of (RelocPatch_h.new Fixture.branch_patch)
                                          Fixture.branch_apply.1),
                    Fixture.branch_apply.2)) by (vm_compute; reflexivity).
  assert (Hadd : added Fixture.w0 Fixture.branch_apply.2
                       (trace Fixture.branch_apply.2)) by reflexivity.
  split; [exact Hrun |]. split; [exact Hadd |].
  destruct (Apply_hook_write_matches_size Fixture.env _ _ _ _ _ _ Hrun Hadd)
    as (n & Hn & [(Hty & _) | (_ & Hk)]).
  - vm_compute in Hty. discriminate Hty.
  - vm_compute in Hn. inversion Hn; subst n. exact Hk.
Defined.

Lemma None_patch_is_lookup_only_witness :
  RelocPatch_h.PatchSignature.hook_type
    (RelocPatch_h.sig (RelocPatch_h.new Fixture.lookup_patch))
  = RelocPatch_h.HookType.None
  /\ Fixture.lookup_get
     = (Ok (0x140001000,
            (Fixture.object_of (0, RelocPatch_h.new Fixture.lookup_patch)
                               Fixture.lookup_get.1).2),
        Fixture.lookup_get.2)
  /\ RelocPatch_h.Apply Fixture.env (RelocPatch_h.new Fixture.lookup_patch)
                        0 Fixture.w0
     = (Fault "Cannot get the size of an invalid hook type.",
        Fixture.lookup_get.2).
Proof.
  assert (Hty : RelocPatch_h.PatchSignature.hook_type
                  (RelocPatch_h.sig (RelocPatch_h.new Fixture.lookup_patch))
                = RelocPatch_h.HookType.None) by reflexivity.
  assert (Hget : RelocPatch_h.GetUIntPtr Fixture.env
                   (RelocPatch_h.new Fixture.lookup_patch) Fixture.w0
                 = (Ok (0x140001000,
                        (Fixture.object_of
                           (0, RelocPatch_h.new Fixture.lookup_patch)
                           Fixture.lookup_get.1).2),
                    Fixture.lookup_get.2)) by (vm_compute; reflexivity).
  split; [exact Hty |]. split; [exact Hget |].
  exact (proj1 (proj2 (None_patch_is_lookup_only
                         Fixture.env _ _ _ 0 _ _ Hty Hget))).
Defined.

Lemma scanner_miss_faults_witness :
  RelocPatch_h.real_address (RelocPatch_h.new Fixture.branch_patch) = 0
  /\ RelocPatch_h.Apply Fixture.env_scan_fails
       (RelocPatch_h.new Fixture.branch_patch) 0x7010 Fixture.w0
     = (Fault "real_address",
        emit (EvRVAScan "SkillCapPatch" "48 8B 01" 0x76 0 0) Fixture.w0).
Proof.
  assert (Hz : RelocPatch_h.real_address (RelocPatch_h.new Fixture.branch_patch)
               = 0) by reflexivity.
  split; [exact Hz |].
  refine (proj1 (proj2 (proj2 (proj2 (proj2 (proj2
            (scanner_miss_faults Fixture.env_scan_fails
               (RelocPatch_h.new Fixture.branch_patch) 0x7010 Fixture.w0
               Hz _))))))).
  vm_compute. reflexivity.
Defined.

Lemma GetRetAddr_is_GetUIntPtr_plus_Size_witness :
  Fixture.branch_get
  = (Ok (0x140001076,
         (Fixture.object_of (0, RelocPatch_h.new Fixture.branch_patch)
                            Fixture.branch_get.1).2),
     Fixture.branch_get.2)
  /\ RelocPatch_h.HookType.Size
       (RelocPatch_h.PatchSignature.hook_type
          (RelocPatch_h.sig (RelocPatch_h.new Fixture.branch_patch))) = Ok 6
  /\ RelocPatch_h.GetRetAddr Fixture.env (RelocPatch_h.new Fixture.branch_patch)
                             Fixture.w0
     = (Ok (0x140001076 + 6,
            (Fixture.object_of (0, RelocPatch_h.new Fixture.branch_patch)
                               Fixture.branch_get.1).2),
        Fixture.branch_get.2).
Proof.
  assert (Hget : RelocPatch_h.GetUIntPtr Fixture.env
                   (RelocPatch_h.new Fixture.branch_patch) Fixture.w0
                 = (Ok (0x140001076,
                        (Fixture.object_of
                           (0, RelocPatch_h.new Fixture.branch_patch)
                           Fixture.branch_get.1).2),
                    Fixture.branch_get.2)) by (vm_compute; reflexivity).
  assert (Hn : RelocPatch_h.HookType.Size
                 (RelocPatch_h.PatchSignature.hook_type
                    (RelocPatch_h.sig (RelocPatch_h.new Fixture.branch_patch)))
               = Ok 6) by reflexivity.
  split; [exact Hget |]. split; [exact Hn |].
  apply (proj2 (GetRetAddr_is_GetUIntPtr_plus_Size
                  Fixture.env _ _ _ _ _ _ Hget Hn)).
  - vm_compute. discriminate.
  - vm_compute. reflexivity.
Defined.

Lemma members_change_code_once_witness :
  method_calls Fixture.env
    (RelocPatch_h.new Fixture.branch_patch, Fixture.w0)
    (Fixture.object_of (RelocPatch_h.new Fixture.branch_patch)
                       Fixture.branch_apply.1,
     Fixture.branch_apply.2)
  /\ cells Fixture.branch_apply.2 = cells Fixture.w0.
Proof.
  assert (Hrun : RelocPatch_h.Apply Fixture.env
                   (RelocPatch_h.new Fixture.branch_patch) 0x7010 Fixture.w0
                 = (Ok (Fixture.object_of (RelocPatch_h.new Fixture.branch_patch)
                                          Fixture.branch_apply.1),
                    Fixture.branch_apply.2)) by (vm_compute; reflexivity).
  assert (Hcalls : method_calls Fixture.env
                     (RelocPatch_h.new Fixture.branch_patch, Fixture.w0)
                     (Fixture.object_of (RelocPatch_h.new Fixture.branch_patch)
                                        Fixture.branch_apply.1,
                      Fixture.branch_apply.2))
    by exact (calls_step _ _ _ _ (call_Apply _ _ _ _ _ _ Hrun) (calls_none _ _)).
  split; [exact Hcalls |].
  exact (proj1 (members_change_code_once Fixture.env _ _ Hcalls)).
Defined.
